(** * Annotation-based MCP tool filtering (ibmi_agent_sdk.langchain.filtered_mcp_tools)

    A shallow embedding of [filtered_mcp_tools.py]: the Python values that
    annotations and filter values range over, the three helper functions
    [_get_annotation_value], [_annotation_value_matches_filter] and
    [_should_include_tool], and the filtering pass of
    [load_filtered_mcp_tools] together with its debug output.

    Python exceptions are explicit: a computation that may raise returns
    a [Result], and [try ... except Exception] is [try_except], which
    lets through what is no [Exception].  Printing is explicit as well: a
    computation that writes returns the lines written with its outcome,
    and formatting or writing a debug line may raise.

    The LangGraph agents module that calls the loader
    ([frameworks/langchain/.../agents/ibmi_agents.py]) is embedded over an
    explicit world: its lazily created globals, the environment, the
    terminal. *)

From Stdlib Require Import ZArith Ascii String List Bool Lia.
From stdpp Require Import base option list strings gmap.

#[local] Set Warnings "-register-all".

Local Open Scope Z_scope.
Local Open Scope string_scope.
Local Open Scope list_scope.

(** ** Python values, exceptions and the operators the module uses *)

Module Py.

(** The values an annotation or a non-callable filter value can take:
    [None], booleans, integers, strings and lists of such values, nested
    to any depth (JSON null, true/false, integer, string, array). *)
Inductive Value : Type :=
  | VNone
  | VBool (b : bool)
  | VInt (n : Z)
  | VStr (s : string)
  | VList (l : list Value).

(** Induction over values that also descends into list elements. *)
Fixpoint Value_nested_ind (P : Value -> Prop)
    (HNone : P VNone) (HBool : forall b, P (VBool b))
    (HInt : forall n, P (VInt n)) (HStr : forall s, P (VStr s))
    (HList : forall l, Forall P l -> P (VList l)) (v : Value) : P v :=
  match v with
  | VNone => HNone
  | VBool b => HBool b
  | VInt n => HInt n
  | VStr s => HStr s
  | VList l =>
      HList l
        ((fix all (l : list Value) : Forall P l :=
            match l with
            | [] => @List.Forall_nil Value P
            | x :: r =>
                @List.Forall_cons Value P x r
                  (Value_nested_ind P HNone HBool HInt HStr HList x) (all r)
            end) l)
  end.

(** The exceptions met in the module.  [BaseException] stands for the
    exceptions that are no [Exception] ([SystemExit], [KeyboardInterrupt],
    ...); [Exception] for any other subclass of [Exception]. *)
Inductive Exn : Type :=
  | TypeError (msg : string)
  | AttributeError (msg : string)
  | ValueError (msg : string)
  | UnicodeEncodeError (msg : string)
  | Exception (msg : string)
  | BaseException (msg : string).

(** [isinstance(e, Exception)] *)
Definition is_exception (e : Exn) : bool :=
  match e with
  | BaseException _ => false
  | _ => true
  end.

Inductive Result (A : Type) : Type :=
  | Ok (a : A)
  | Raise (e : Exn).
Arguments Ok {A} a.
Arguments Raise {A} e.

Definition bind {A B : Type} (m : Result A) (k : A -> Result B) : Result B :=
  match m with
  | Ok a => k a
  | Raise e => Raise e
  end.

Notation "x <- m ;; k" := (bind m (fun x => k))
  (at level 62, m at next level, right associativity).

(** [try: return body  except Exception: return handler]; every handler of
    the module returns a constant.  An exception that is no [Exception]
    is not caught. *)
Definition try_except {A : Type} (body : Result A) (handler : Exn -> A)
    : Result A :=
  match body with
  | Ok a => Ok a
  | Raise e => if is_exception e then Ok (handler e) else Raise e
  end.

Definition is_ok {A : Type} (m : Result A) : bool :=
  match m with Ok _ => true | Raise _ => false end.

(** A Python callable of one argument: it returns a value or raises. *)
Definition Callable (A : Type) : Type := A -> Result Value.

(** [bool(v)] *)
Definition truthy (v : Value) : bool :=
  match v with
  | VNone => false
  | VBool b => b
  | VInt n => negb (Z.eqb n 0)
  | VStr s => negb (String.eqb s "")
  | VList l => match l with [] => false | _ :: _ => true end
  end.

(** [a == b].  [bool] is a subclass of [int]: [True == 1], [False == 0].
    Lists compare element by element. *)
Fixpoint py_eq (a b : Value) : bool :=
  match a, b with
  | VNone, VNone => true
  | VBool x, VBool y => Bool.eqb x y
  | VBool x, VInt y => Z.eqb (Z.b2z x) y
  | VInt x, VBool y => Z.eqb x (Z.b2z y)
  | VInt x, VInt y => Z.eqb x y
  | VStr x, VStr y => String.eqb x y
  | VList xs, VList ys =>
      (fix eq_items (xs ys : list Value) : bool :=
         match xs, ys with
         | [], [] => true
         | x :: xs', y :: ys' => py_eq x y && eq_items xs' ys'
         | _, _ => false
         end) xs ys
  | _, _ => false
  end.

(** [isinstance(v, list)] *)
Definition is_list (v : Value) : bool :=
  match v with VList _ => true | _ => false end.

(** A scalar in the sense of the filter documentation: str, bool or int. *)
Definition scalar (v : Value) : bool :=
  match v with VBool _ | VInt _ | VStr _ => true | _ => false end.

(** [hash(v)] succeeds on [None], booleans, integers and strings and
    raises [TypeError] on a list. *)
Definition hashable (v : Value) : bool :=
  match v with VList _ => false | _ => true end.

(** [x in l] for a list [l]. *)
Definition py_in (x : Value) (l : list Value) : bool :=
  existsb (fun e => py_eq x e) l.

(** A Python [set] is kept as the list of its members, pairwise different
    under [==], in order of first insertion.  The module only ever looks at
    the truth value of an intersection, so the iteration order of a real
    set is not observed. *)
Definition PySet : Type := list Value.

Definition set_add (s : PySet) (x : Value) : Result PySet :=
  if hashable x
  then Ok (if py_in x s then s else s ++ [x])
  else Raise (TypeError "unhashable type: 'list'").

Fixpoint set_update (s : PySet) (l : list Value) : Result PySet :=
  match l with
  | [] => Ok s
  | x :: r => s' <- set_add s x ;; set_update s' r
  end.

(** [set(l)] *)
Definition py_set (l : list Value) : Result PySet := set_update [] l.

(** [s1 & s2] *)
Definition set_and (s1 s2 : PySet) : PySet :=
  List.filter (fun x => py_in x s2) s1.

(** [bool(s)] for a set. *)
Definition set_truthy (s : PySet) : bool :=
  match s with [] => false | _ :: _ => true end.

(** The number a boolean or an integer stands for under [==]. *)
Definition as_int (v : Value) : option Z :=
  match v with
  | VBool b => Some (Z.b2z b)
  | VInt n => Some n
  | _ => None
  end.

(** Canonical representative of a value under [==]: booleans become the
    integers they equal. *)
Fixpoint norm (v : Value) : Value :=
  match v with
  | VBool b => VInt (Z.b2z b)
  | VList l => VList (List.map norm l)
  | _ => v
  end.

End Py.

(** ** The module [filtered_mcp_tools] *)

Module FilteredMcpTools.
Import Py.

(** *** Tools *)

(** What [tool.metadata] can be.  A LangChain tool carries
    [metadata : Optional[Dict[str, Any]]]; the code also guards against a
    tool without the attribute ([hasattr]) and against an attribute that
    is no dictionary (the [except] clause). *)
Inductive Metadata : Type :=
  | MetaAbsent                          (* no attribute [metadata] *)
  | MetaNone                            (* [metadata is None] *)
  | MetaDict (d : gmap string Value)    (* a dictionary *)
  | MetaOpaque.                         (* a truthy object without [get] *)

Record Tool : Type := {
  name : string;
  description : string;
  metadata : Metadata
}.

(** [hasattr(tool, 'metadata')] *)
Definition has_metadata (tool : Tool) : bool :=
  match metadata tool with MetaAbsent => false | _ => true end.

(** [bool(tool.metadata)]: [None] and the empty dictionary are falsy. *)
Definition metadata_truthy (tool : Tool) : bool :=
  match metadata tool with
  | MetaAbsent | MetaNone => false
  | MetaDict d => negb (Nat.eqb (size d) 0)
  | MetaOpaque => true
  end.

(** [tool.metadata.get(key, None)] *)
Definition metadata_get (tool : Tool) (key : string) : Result Value :=
  match metadata tool with
  | MetaDict d => Ok (default VNone (d !! key))
  | _ => Raise (AttributeError "object has no attribute 'get'")
  end.

(** The [try] statement of [_get_annotation_value]. *)
Definition get_annotation_value_try (tool : Tool) (annotation_key : string)
    : Result Value :=
  try_except
    (if has_metadata tool && metadata_truthy tool
     then metadata_get tool annotation_key
     else Ok VNone)
    (fun _ => VNone).

(** [_get_annotation_value]: the only exception its [try] body can raise
    is the [AttributeError] of a missing [get], which is caught, so the
    function always returns a value (the second branch is never taken). *)
Definition _get_annotation_value (tool : Tool) (annotation_key : string)
    : Value :=
  match get_annotation_value_try tool annotation_key with
  | Ok v => v
  | Raise _ => VNone
  end.

(** *** Filter values and filter specs *)

(** A filter value is a callable ([callable(filter_value)]) or a plain
    value: a list ([isinstance(filter_value, list)]) or a primitive. *)
Inductive FilterValue : Type :=
  | FCallable (f : Callable Value)
  | FData (v : Value).

(** [annotation_filters]: a dictionary, iterated by [.items()] in insertion
    order, so it is kept as the list of its items.  A dictionary holds
    every key once: the lists that stand for a dictionary are those with
    [dict_keys_distinct]. *)
Definition FilterSpec : Type := list (string * FilterValue).

Definition dict_keys_distinct (d : FilterSpec) : Prop :=
  NoDup (List.map fst d).

(** [bool(annotation_filters)]: [None] and [{}] are falsy. *)
Definition filters_truthy (annotation_filters : option FilterSpec) : bool :=
  match annotation_filters with
  | Some (_ :: _) => true
  | _ => false
  end.

(** [custom_filter]: [None] or a callable object.  The code tests the
    truth value of the object before it calls it ([if custom_filter:],
    [not custom_filter]), so the object is known by both: its truth value
    ([__bool__], or [__len__], true when it defines neither) and what
    calling it on a tool does. *)
Record CallableObject : Type := {
  truth_value : bool;
  call : Callable Tool
}.

(** A function or a lambda: truthy. *)
Definition func (f : Callable Tool) : CallableObject :=
  {| truth_value := true; call := f |}.

(** [bool(custom_filter)] *)
Definition custom_truthy (custom_filter : option CallableObject) : bool :=
  match custom_filter with
  | Some o => truth_value o
  | None => false
  end.

(** [annotation_filters.items()], reached only behind
    [if annotation_filters:]. *)
Definition items (annotation_filters : option FilterSpec) : FilterSpec :=
  match annotation_filters with
  | Some d => d
  | None => []
  end.

Definition _annotation_value_matches_filter
    (annotation_value : Value) (filter_value : FilterValue) : Result bool :=
  match filter_value with
  | FCallable f =>
      try_except
        (r <- f annotation_value ;; Ok (truthy r))
        (fun _ => false)
  | FData (VList filter_list) =>
      match annotation_value with
      | VList annotation_list =>
          sa <- py_set annotation_list ;;
          sf <- py_set filter_list ;;
          Ok (set_truthy (set_and sa sf))
      | _ => Ok (py_in annotation_value filter_list)
      end
  | FData v => Ok (py_eq annotation_value v)
  end.

(** The loop [for annotation_key, filter_value in annotation_filters.items()]
    of [_should_include_tool]; it returns [False] at the first key that does
    not match and [True] when the items are exhausted. *)
Fixpoint match_items (tool : Tool) (entries : FilterSpec) : Result bool :=
  match entries with
  | [] => Ok true
  | (annotation_key, filter_value) :: rest =>
      let annotation_value := _get_annotation_value tool annotation_key in
      m <- _annotation_value_matches_filter annotation_value filter_value ;;
      if negb m then Ok false else match_items tool rest
  end.

(** The block [if custom_filter: try: ... except Exception: return False];
    [true] means that control falls through to the annotation filters. *)
Definition custom_filter_passes (tool : Tool)
    (custom_filter : option CallableObject) : Result bool :=
  match custom_filter with
  | Some o =>
      if truth_value o then
        try_except
          (r <- call o tool ;; if negb (truthy r) then Ok false else Ok true)
          (fun _ => false)
      else Ok true
  | None => Ok true
  end.

Definition _should_include_tool (tool : Tool)
    (annotation_filters : option FilterSpec)
    (custom_filter : option CallableObject) : Result bool :=
  passed <- custom_filter_passes tool custom_filter ;;
  if negb passed then Ok false
  else if filters_truthy annotation_filters
  then match_items tool (items annotation_filters)
  else Ok true.

(** *** Loading and filtering *)

(** The MCP session, seen through the one call the module makes on it:
    [load_mcp_tools(session)] (from [langchain_mcp_adapters]) lists the
    tools of the server. *)
Record Session : Type := { listed_tools : list Tool }.

Definition load_mcp_tools (session : Session) : list Tool :=
  listed_tools session.

(** What the debug output depends on outside the program: the limit on
    the digits of an integer turned into text ([sys.int_max_str_digits],
    4300 unless changed, 0 for no limit) and whether the encoding of
    [stdout] can write the check and cross marks of the tool lines (the
    rest of a line, tool names and annotation texts, is taken to be text
    that [stdout] can write). *)
Record Runtime : Type := {
  int_max_str_digits : nat;
  stdout_encodes_marks : bool
}.

(** CPython's defaults on a UTF-8 terminal. *)
Definition cpython : Runtime :=
  {| int_max_str_digits := 4300; stdout_encodes_marks := true |}.

(** [str(n)] returns: the integer has no more digits than the limit. *)
Definition int_str_ok (rt : Runtime) (n : Z) : bool :=
  match int_max_str_digits rt with
  | O => true
  | S _ => Z.ltb (Z.abs n) (10 ^ Z.of_nat (int_max_str_digits rt))
  end.

(** Turning the value into text, as an f-string or [repr] does, returns:
    every integer in it can be turned into text. *)
Fixpoint str_ok (rt : Runtime) (v : Value) : bool :=
  match v with
  | VInt n => int_str_ok rt n
  | VList l => forallb (str_ok rt) l
  | _ => true
  end.

(** The same for the dictionary of filters: its data values are turned
    into text, a callable is shown by its name. *)
Definition filters_str_ok (rt : Runtime) (d : FilterSpec) : bool :=
  forallb
    (fun kv =>
       match snd kv with
       | FData v => str_ok rt v
       | FCallable _ => true
       end) d.

Definition digits_exceeded : Exn :=
  ValueError "Exceeds the limit for integer string conversion".

Definition marks_not_encodable : Exn :=
  UnicodeEncodeError "codec can't encode character".

(** The lines [print] writes when [debug] is set, one constructor per
    [print] call of [load_filtered_mcp_tools], holding the data the line
    is formatted from. *)
Inductive DebugLine : Type :=
  | LoadedTotal (n : nat)
  | NoFiltersSpecified
  | ApplyingFilters (shown : option FilterSpec)
  | IncludingTool (tool_name : string)
  | ExcludingTool (tool_name : string) (annotations_info : list (string * Value))
  | FilteredTo (n : nat).

(** The exception that formatting and writing the line raises, if any:
    [ValueError] when the filters shown hold an integer over the digit
    limit, [UnicodeEncodeError] when a tool line meets a [stdout] that
    cannot encode its mark.  The counts of the other lines are far below
    any limit Python lets one set. *)
Definition line_error (rt : Runtime) (line : DebugLine) : option Exn :=
  match line with
  | ApplyingFilters (Some d) =>
      if filters_str_ok rt d then None else Some digits_exceeded
  | IncludingTool _ | ExcludingTool _ _ =>
      if stdout_encodes_marks rt then None else Some marks_not_encodable
  | _ => None
  end.

(** A computation that writes lines and returns or raises: the lines
    written, and the outcome. *)
Definition Io (A : Type) : Type := list DebugLine * Result A.

Definition io_ret {A : Type} (a : A) : Io A := ([], Ok a).

Definition io_lift {A : Type} (r : Result A) : Io A := ([], r).

Definition io_bind {A B : Type} (m : Io A) (k : A -> Io B) : Io B :=
  match m with
  | (out, Ok a) => let '(out', r) := k a in (out ++ out', r)
  | (out, Raise e) => (out, Raise e)
  end.

Notation "x <~ m ;; k" := (io_bind m (fun x => k))
  (at level 62, m at next level, right associativity).

(** [print(f"...")] *)
Definition print (rt : Runtime) (line : DebugLine) : Io unit :=
  match line_error rt line with
  | None => ([line], Ok tt)
  | Some e => ([], Raise e)
  end.

(** [if debug: print(f"...")] *)
Definition debug_print (rt : Runtime) (debug : bool) (line : DebugLine)
    : Io unit :=
  if debug then print rt line else io_ret tt.

(** The loop that builds [annotations_info] for an excluded tool: each
    key of the filter spec with the tool's value for it, turned into text
    by [f"{annotation_key}={annotation_value}"], which raises on an integer
    over the digit limit. *)
Fixpoint format_annotations (rt : Runtime) (tool : Tool)
    (entries : FilterSpec) : Result (list (string * Value)) :=
  match entries with
  | [] => Ok []
  | (annotation_key, _) :: rest =>
      let annotation_value := _get_annotation_value tool annotation_key in
      if str_ok rt annotation_value
      then info <- format_annotations rt tool rest ;;
           Ok ((annotation_key, annotation_value) :: info)
      else Raise digits_exceeded
  end.

(** [annotations_info]: empty when there is no filter spec (printed as
    "no matching annotations"). *)
Definition annotations_info (rt : Runtime) (tool : Tool)
    (annotation_filters : option FilterSpec)
    : Result (list (string * Value)) :=
  if filters_truthy annotation_filters
  then format_annotations rt tool (items annotation_filters)
  else Ok [].

(** The loop [for tool in all_tools], threading the list
    [filtered_tools]. *)
Fixpoint filter_loop (rt : Runtime) (annotation_filters : option FilterSpec)
    (custom_filter : option CallableObject) (debug : bool)
    (all_tools filtered_tools : list Tool) : Io (list Tool) :=
  match all_tools with
  | [] => io_ret filtered_tools
  | tool :: rest =>
      include <~
        io_lift (_should_include_tool tool annotation_filters custom_filter) ;;
      if include then
        _ <~ debug_print rt debug (IncludingTool (name tool)) ;;
        filter_loop rt annotation_filters custom_filter debug rest
          (filtered_tools ++ [tool])
      else if debug then
        info <~ io_lift (annotations_info rt tool annotation_filters) ;;
        _ <~ print rt (ExcludingTool (name tool) info) ;;
        filter_loop rt annotation_filters custom_filter debug rest
          filtered_tools
      else
        filter_loop rt annotation_filters custom_filter debug rest
          filtered_tools
  end.

(** [load_filtered_mcp_tools]: the output written and the value returned
    (or the exception raised). *)
Definition load_filtered_mcp_tools (rt : Runtime) (session : Session)
    (annotation_filters : option FilterSpec)
    (custom_filter : option CallableObject) (debug : bool)
    : Io (list Tool) :=
  let all_tools := load_mcp_tools session in
  _ <~ debug_print rt debug (LoadedTotal (length all_tools)) ;;
  if negb (filters_truthy annotation_filters)
     && negb (custom_truthy custom_filter)
  then
    _ <~ debug_print rt debug NoFiltersSpecified ;;
    io_ret all_tools
  else
    _ <~ debug_print rt debug
           (ApplyingFilters
              (if filters_truthy annotation_filters
               then annotation_filters else None)) ;;
    filtered_tools <~
      filter_loop rt annotation_filters custom_filter debug all_tools [] ;;
    _ <~ debug_print rt debug (FilteredTo (length filtered_tools)) ;;
    io_ret filtered_tools.

(** *** Convenience factory functions *)

(** [toolsets: Union[str, List[str]]] becomes
    [[toolsets] if isinstance(toolsets, str) else list(toolsets)]. *)
Definition toolsets_list (toolsets : string + list string) : list Value :=
  match toolsets with
  | inl s => [VStr s]
  | inr l => List.map VStr l
  end.

Definition load_toolset_tools (rt : Runtime) (session : Session)
    (toolsets : string + list string) (debug : bool) :=
  load_filtered_mcp_tools rt session
    (Some [("toolsets", FData (VList (toolsets_list toolsets)))]) None debug.

Definition load_readonly_tools (rt : Runtime) (session : Session)
    (debug : bool) :=
  load_filtered_mcp_tools rt session
    (Some [("readOnlyHint", FData (VBool true))]) None debug.

Definition load_non_destructive_tools (rt : Runtime) (session : Session)
    (debug : bool) :=
  load_filtered_mcp_tools rt session
    (Some [("destructiveHint", FData (VBool false))]) None debug.

Definition load_closed_world_tools (rt : Runtime) (session : Session)
    (debug : bool) :=
  load_filtered_mcp_tools rt session
    (Some [("openWorldHint", FData (VBool false))]) None debug.

Definition load_safe_tools (rt : Runtime) (session : Session)
    (debug : bool) :=
  load_filtered_mcp_tools rt session
    (Some [("readOnlyHint", FData (VBool true));
           ("destructiveHint", FData (VBool false));
           ("openWorldHint", FData (VBool false))]) None debug.

(** The filtering pass on its own: the value [load_filtered_mcp_tools]
    returns for a session that lists [tools]. *)
Definition filterTools (rt : Runtime) (tools : list Tool)
    (filterSpec : option FilterSpec)
    (customPredicate : option CallableObject) (debug : bool)
    : Result (list Tool) :=
  snd (load_filtered_mcp_tools rt {| listed_tools := tools |}
         filterSpec customPredicate debug).

End FilteredMcpTools.

(** ** Readings of the code used in the statements *)

Module Reading.
Import Py FilteredMcpTools.

(** The tool is kept: [_should_include_tool] returns [True]. *)
Definition included (annotation_filters : option FilterSpec)
    (custom_filter : option CallableObject) (tool : Tool) : bool :=
  match _should_include_tool tool annotation_filters custom_filter with
  | Ok b => b
  | Raise _ => false
  end.

(** The key [key] with filter value [filter_value] matches the tool. *)
Definition key_matches (tool : Tool) (key : string)
    (filter_value : FilterValue) : Result bool :=
  _annotation_value_matches_filter
    (_get_annotation_value tool key) filter_value.

(** The tool has no annotation [key]: no metadata at all, or a dictionary
    without the key. *)
Definition lacks_annotation (tool : Tool) (key : string) : Prop :=
  match metadata tool with
  | MetaDict d => d !! key = None
  | _ => True
  end.

(** A filter value of the two kinds that compare data: a scalar
    (str/bool/int) or a list of scalars. *)
Definition scalar_or_scalars (filter_value : FilterValue) : Prop :=
  match filter_value with
  | FCallable _ => False
  | FData (VList l) => Forall (fun v => scalar v = true) l
  | FData v => scalar v = true
  end.

(** The keys of the filter spec, each with the tool's value for it: what
    the line of an excluded tool shows. *)
Definition annotation_pairs (tool : Tool)
    (annotation_filters : option FilterSpec) : list (string * Value) :=
  if filters_truthy annotation_filters
  then List.map (fun kv => (fst kv, _get_annotation_value tool (fst kv)))
         (items annotation_filters)
  else [].

(** The debug line written for one tool of the loop. *)
Definition rationale (annotation_filters : option FilterSpec)
    (custom_filter : option CallableObject) (tool : Tool) : DebugLine :=
  if included annotation_filters custom_filter tool
  then IncludingTool (name tool)
  else ExcludingTool (name tool) (annotation_pairs tool annotation_filters).

(** The exception is one of printing: the [ValueError] of the digit limit
    or the [UnicodeEncodeError] of the output encoding. *)
Definition print_error (e : Exn) : bool :=
  match e with
  | ValueError _ | UnicodeEncodeError _ => true
  | _ => false
  end.

(** The exception that writing the debug line of a tool raises, if any,
    [include] being what [_should_include_tool] returned for it. *)
Definition line_error_of (rt : Runtime)
    (annotation_filters : option FilterSpec) (tool : Tool) (include : bool)
    : option Exn :=
  if include then line_error rt (IncludingTool (name tool))
  else
    match annotations_info rt tool annotation_filters with
    | Ok info => line_error rt (ExcludingTool (name tool) info)
    | Raise e => Some e
    end.

Definition tool_line_error (rt : Runtime)
    (annotation_filters : option FilterSpec)
    (custom_filter : option CallableObject) (tool : Tool) : option Exn :=
  line_error_of rt annotation_filters tool
    (included annotation_filters custom_filter tool).

(** The exception that writing the line of the filters applied raises,
    if any. *)
Definition header_error (rt : Runtime)
    (annotation_filters : option FilterSpec) : option Exn :=
  line_error rt
    (ApplyingFilters
       (if filters_truthy annotation_filters
        then annotation_filters else None)).

(** The pass returns at once: no annotation filters, no custom filter. *)
Definition returns_all (annotation_filters : option FilterSpec)
    (custom_filter : option CallableObject) : bool :=
  negb (filters_truthy annotation_filters)
  && negb (custom_truthy custom_filter).

(** Every debug line of the pass over the tools can be written: the line
    of the filters applied and the line of each tool. *)
Definition lines_ok (rt : Runtime) (annotation_filters : option FilterSpec)
    (custom_filter : option CallableObject) (tools : list Tool) : Prop :=
  returns_all annotation_filters custom_filter = false ->
  header_error rt annotation_filters = None /\
  Forall (fun t => tool_line_error rt annotation_filters custom_filter t = None)
    tools.

(** One turn of the loop over the tools: what [_should_include_tool]
    returns for the tool, unless it or, with [debug] set, the tool's line
    raises. *)
Definition judged (rt : Runtime) (annotation_filters : option FilterSpec)
    (custom_filter : option CallableObject) (debug : bool) (tool : Tool)
    : Result bool :=
  include <- _should_include_tool tool annotation_filters custom_filter ;;
  if debug then
    match line_error_of rt annotation_filters tool include with
    | None => Ok include
    | Some e => Raise e
    end
  else Ok include.

(** The tools a judge keeps, up to the first tool on which it raises. *)
Fixpoint collect (judge : Tool -> Result bool) (tools : list Tool)
    : Result (list Tool) :=
  match tools with
  | [] => Ok []
  | tool :: rest =>
      include <- judge tool ;;
      kept <- collect judge rest ;;
      Ok (if include then tool :: kept else kept)
  end.

(** The callable raises nothing but [Exception]s on the argument. *)
Definition raises_only_exceptions {A : Type} (f : Callable A) (a : A)
    : Prop :=
  forall e, f a = Raise e -> is_exception e = true.

(** A key of the spec holds a list and the tool's annotation for it is a
    list, one of the two with an unhashable element. *)
Definition unhashable_key (annotation_filters : option FilterSpec)
    (tool : Tool) : Prop :=
  exists k fl al,
    In (k, FData (VList fl)) (items annotation_filters) /\
    _get_annotation_value tool k = VList al /\
    (Exists (fun v => hashable v = false) al \/
     Exists (fun v => hashable v = false) fl).

(** The custom filter, or a predicate of the spec, raises [e] on the
    tool. *)
Definition callable_raises (annotation_filters : option FilterSpec)
    (custom_filter : option CallableObject) (tool : Tool) (e : Exn)
    : Prop :=
  (exists o, custom_filter = Some o /\ truth_value o = true /\
     call o tool = Raise e) \/
  (exists k f, In (k, FCallable f) (items annotation_filters) /\
     f (_get_annotation_value tool k) = Raise e).

End Reading.

(** ** Concrete tools and filter specs *)

Module Examples.
Import Py FilteredMcpTools.

Definition strs (l : list string) : Value := VList (List.map VStr l).

Definition mk_tool (n : string) (annotations : list (string * Value)) : Tool :=
  {| name := n; description := "";
     metadata := MetaDict (list_to_map annotations) |}.

(** [toolsets = ["performance", "sysadmin"]], [readOnlyHint = True] *)
Definition system_status : Tool :=
  mk_tool "system_status"
    [("toolsets", strs ["performance"; "sysadmin"]);
     ("readOnlyHint", VBool true)].

(** [toolsets = ["performance"]], [readOnlyHint = False] *)
Definition tune_pool : Tool :=
  mk_tool "tune_pool"
    [("toolsets", strs ["performance"]); ("readOnlyHint", VBool false)].

(** no [toolsets] annotation *)
Definition describe_object : Tool :=
  mk_tool "describe_object" [("readOnlyHint", VBool true)].

(** no metadata at all *)
Definition bare_tool : Tool :=
  {| name := "bare_tool"; description := ""; metadata := MetaNone |}.

(** [readOnlyHint = 1]: an integer where a boolean is expected *)
Definition int_hint : Tool :=
  mk_tool "int_hint" [("readOnlyHint", VInt 1)].

(** [toolsets = [["performance"]]]: a list nested in the list *)
Definition nested_toolsets : Tool :=
  mk_tool "nested_toolsets" [("toolsets", VList [strs ["performance"]])].

Definition by_toolsets (l : list string) : FilterSpec :=
  [("toolsets", FData (strs l))].

Definition read_only (b : bool) : FilterSpec :=
  [("readOnlyHint", FData (VBool b))].

(** [lambda v: v is None] *)
Definition is_none : Callable Value :=
  fun v => Ok (VBool (match v with VNone => true | _ => false end)).

(** [lambda tool: 1 / 0]: a custom filter that always raises *)
Definition always_raises : Callable Tool :=
  fun _ => Raise (Exception "division by zero").

(** A custom filter that leaves the program: [sys.exit()] raises
    [SystemExit], which is no [Exception]. *)
Definition exits : Callable Tool :=
  fun _ => Raise (BaseException "SystemExit").

(** A callable object that is falsy: an instance of a class with
    [__call__] returning [False] and [__len__] returning 0. *)
Definition falsy_rejecter : CallableObject :=
  {| truth_value := false; call := fun _ => Ok (VBool false) |}.

(** [lambda tool: tool.name != "tune_pool"] *)
Definition not_tune_pool : Callable Tool :=
  fun t => Ok (VBool (negb (String.eqb (name t) "tune_pool"))).

(** [readOnlyHint = 10 ** 5000]: an integer of 5001 digits *)
Definition huge_hint : Tool :=
  mk_tool "huge_hint" [("readOnlyHint", VInt (10 ^ 5000))].

(** A [stdout] whose encoding has no check and cross marks (cp1252, ascii). *)
Definition legacy_stdout : Runtime :=
  {| int_max_str_digits := 4300; stdout_encodes_marks := false |}.

(** The five tools of the example scenario: A and C in toolset
    "performance", B in "security", D and E without toolsets. *)
Definition tool_A : Tool := mk_tool "A" [("toolsets", strs ["performance"])].
Definition tool_B : Tool := mk_tool "B" [("toolsets", strs ["security"])].
Definition tool_C : Tool := mk_tool "C" [("toolsets", strs ["performance"])].
Definition tool_D : Tool := mk_tool "D" [].
Definition tool_E : Tool := bare_tool.

End Examples.

(** ** Readings used for the factory functions *)

Module Tagged.
Import Py FilteredMcpTools.

(** The tool carries the toolset [n]: its [toolsets] annotation is a list
    holding the string [n], or the string [n] itself. *)
Definition in_toolset (n : string) (tool : Tool) : Prop :=
  match _get_annotation_value tool "toolsets" with
  | VList l => In (VStr n) l
  | VStr s => s = n
  | _ => False
  end.

(** The annotation [key] of the tool equals ([==]) the boolean [b], as
    Python compares: [b] itself, or a number equal to it ([1 == True],
    [0 == False]). *)
Definition hint_is (b : bool) (key : string) (tool : Tool) : Prop :=
  py_eq (_get_annotation_value tool key) (VBool b) = true.

(** The text of the annotation [key] of the tool can be written: it holds
    no integer over the digit limit. *)
Definition shows (rt : Runtime) (key : string) (tool : Tool) : Prop :=
  str_ok rt (_get_annotation_value tool key) = true.

(** The callable returns a true value on the argument (and does not
    raise). *)
Definition returns_truthy {A : Type} (f : Callable A) (a : A) : bool :=
  match f a with
  | Ok r => truthy r
  | Raise _ => false
  end.

(** The toolset names a call of [load_toolset_tools] asks for. *)
Definition requested (toolsets : string + list string) : list string :=
  match toolsets with
  | inl n => [n]
  | inr l => l
  end.

(** Every callable of the list returns a true value on the tool's
    annotation for its key. *)
Definition predicates_hold (preds : list (string * Callable Value))
    (tool : Tool) : bool :=
  forallb
    (fun kp => returns_truthy (snd kp) (_get_annotation_value tool (fst kp)))
    preds.

(** The value a factory function returns, or the exception it raises. *)
Definition returned (r : list DebugLine * Result (list Tool))
    : Result (list Tool) := snd r.

End Tagged.

(** ** The LangGraph agents built on the filtered tools
       ([frameworks/langchain/.../agents/ibmi_agents.py]) *)

Module LangchainAgents.
Import Py FilteredMcpTools.

Definition DEFAULT_MCP_URL : string := "http://127.0.0.1:3010/mcp".
Definition DEFAULT_TRANSPORT : string := "streamable_http".

(** The exceptions this module raises or lets through. *)
Inductive Error : Type :=
  | EOFError                       (* [getpass] without input *)
  | IndexError                     (* an index out of range *)
  | ValueError (msg : string)
  | Raised (e : Exn).
      (* raised while loading the tools, by [print], or by the constructor
         of a chat model *)

(** [MultiServerMCPClient({"ibmi_tools": {"url": url, "transport": transport}})],
    known by its configuration. *)
Record MCPClient : Type := { client_url : string; client_transport : string }.

(** An [InMemorySaver()] or [InMemoryStore()] object, known by its
    identity. *)
Definition Obj : Type := nat.

(** What is written to the terminal. *)
Inductive Output : Type :=
  | Text (s : string)                        (* [print] of a literal *)
  | Prompt (s : string)                      (* the prompt of [getpass] *)
  | Trace (l : DebugLine)                    (* a debug line of the loader *)
  | LoadedTools (n : nat) (kind agent : string).
      (* f"Loaded {n} {kind} tools for {agent}" *)

(** The state the module works on: its three lazily created globals, the
    process environment, the lines waiting at the terminal, the output
    written, and the identity of the next object created. *)
Record World : Type := {
  _shared_checkpointer : option Obj;
  _shared_store : option Obj;
  _mcp_client : option MCPClient;
  environ : gmap string string;
  keyboard : list string;
  stdout : list Output;
  next_obj : Obj
}.

Inductive Outcome (A : Type) : Type :=
  | Val (a : A)
  | Err (e : Error).
Arguments Val {A} a.
Arguments Err {A} e.

Definition M (A : Type) : Type := World -> Outcome A * World.

Definition ret {A : Type} (a : A) : M A := fun w => (Val a, w).

Definition raise {A : Type} (e : Error) : M A := fun w => (Err e, w).

Definition bindM {A B : Type} (m : M A) (k : A -> M B) : M B :=
  fun w =>
    match m w with
    | (Val a, w') => k a w'
    | (Err e, w') => (Err e, w')
    end.

Notation "'let*' x ':=' m 'in' k" := (bindM m (fun x => k))
  (at level 10, x name, m at level 100, k at level 200).

Definition print_out (o : Output) : M unit :=
  fun w =>
    (Val tt,
     {| _shared_checkpointer := _shared_checkpointer w;
        _shared_store := _shared_store w;
        _mcp_client := _mcp_client w;
        environ := environ w;
        keyboard := keyboard w;
        stdout := stdout w ++ [o];
        next_obj := next_obj w |}).

(** [getpass.getpass(prompt)]: the next line typed, [EOFError] when there
    is none. *)
Definition getpass (prompt : string) : M string :=
  let* _ := print_out (Prompt prompt) in
  fun w =>
    match keyboard w with
    | [] => (Err EOFError, w)
    | line :: rest =>
        (Val line,
         {| _shared_checkpointer := _shared_checkpointer w;
            _shared_store := _shared_store w;
            _mcp_client := _mcp_client w;
            environ := environ w;
            keyboard := rest;
            stdout := stdout w;
            next_obj := next_obj w |})
    end.

(** [os.environ[var] = value] *)
Definition setenv (var value : string) : M unit :=
  fun w =>
    (Val tt,
     {| _shared_checkpointer := _shared_checkpointer w;
        _shared_store := _shared_store w;
        _mcp_client := _mcp_client w;
        environ := <[var := value]> (environ w);
        keyboard := keyboard w;
        stdout := stdout w;
        next_obj := next_obj w |}).

(** [not os.environ.get(var)]: the variable is unset or empty. *)
Definition env_falsy (w : World) (var : string) : bool :=
  match environ w !! var with
  | Some v => String.eqb v ""
  | None => true
  end.

(** *** Shared memory management *)

Definition get_shared_checkpointer : M Obj :=
  fun w =>
    match _shared_checkpointer w with
    | Some o => (Val o, w)
    | None =>
        let o := next_obj w in          (* InMemorySaver() *)
        (Val o,
         {| _shared_checkpointer := Some o;
            _shared_store := _shared_store w;
            _mcp_client := _mcp_client w;
            environ := environ w;
            keyboard := keyboard w;
            stdout := stdout w;
            next_obj := S o |})
    end.

Definition get_shared_store : M Obj :=
  fun w =>
    match _shared_store w with
    | Some o => (Val o, w)
    | None =>
        let o := next_obj w in          (* InMemoryStore() *)
        (Val o,
         {| _shared_checkpointer := _shared_checkpointer w;
            _shared_store := Some o;
            _mcp_client := _mcp_client w;
            environ := environ w;
            keyboard := keyboard w;
            stdout := stdout w;
            next_obj := S o |})
    end.

Definition get_mcp_client (url transport : string) : M MCPClient :=
  fun w =>
    match _mcp_client w with
    | Some c => (Val c, w)
    | None =>
        let c := {| client_url := url; client_transport := transport |} in
        (Val c,
         {| _shared_checkpointer := _shared_checkpointer w;
            _shared_store := _shared_store w;
            _mcp_client := Some c;
            environ := environ w;
            keyboard := keyboard w;
            stdout := stdout w;
            next_obj := next_obj w |})
    end.

(** *** Model selection *)

(** [s.startswith(p)] *)
Definition startswith (s p : string) : bool := String.prefix p s.

(** [s.split(sep, 1)] for a separator of one character: the text before
    the first separator and the text after it, or [s] alone when there is
    no separator. *)
Fixpoint split_1 (sep : Ascii.ascii) (s : string) : list string :=
  match s with
  | EmptyString => [EmptyString]
  | String c r =>
      if Ascii.eqb c sep then [EmptyString; r]
      else
        match split_1 sep r with
        | before :: after => String c before :: after
        | [] => [String c EmptyString]
        end
  end.

(** [l[i]] *)
Definition index {A : Type} (l : list A) (i : nat) : M A :=
  match nth_error l i with
  | Some x => ret x
  | None => raise IndexError
  end.

Definition ensure_api_keys (model_id : string) : M unit :=
  fun w =>
    if startswith model_id "openai:" && env_falsy w "OPENAI_API_KEY" then
      (let* _ :=
         print_out (Text "OpenAI API key not found in environment variables.")
       in
       let* key := getpass "Enter your OpenAI API key: " in
       setenv "OPENAI_API_KEY" key) w
    else if startswith model_id "anthropic:"
            && env_falsy w "ANTHROPIC_API_KEY" then
      (let* _ :=
         print_out
           (Text "Anthropic API key not found in environment variables.")
       in
       let* key := getpass "Enter your Anthropic API key: " in
       setenv "ANTHROPIC_API_KEY" key) w
    else (Val tt, w).

Section Agents.

(** The types of the temperature (a float) and of the extra keyword
    arguments handed through to [create_react_agent]; what the debug
    output depends on; the default temperature 0.3 of [get_model]; and
    the session a client opens on the server "ibmi_tools". *)
Context {Temperature Kwargs : Type}.
Context (rt : Runtime).
Context (default_temperature : Temperature).
Context (client_session : MCPClient -> Session).

(** The chat model objects, known by the constructor and its arguments. *)
Inductive ChatModel : Type :=
  | ChatOpenAI (model : string) (temperature : Temperature)
  | ChatAnthropic (model : string) (temperature : Temperature)
  | ChatOllama (model : string) (temperature : Temperature).

(** The constructors belong to [langchain_openai], [langchain_anthropic]
    and [langchain_ollama]: a constructor checks its arguments against
    the environment and returns the object or raises ([ChatOpenAI] raises
    when OPENAI_API_KEY is empty).  [init_error] is the exception of the
    constructor call, if any. *)
Context (init_error : ChatModel -> gmap string string -> option Exn).

Definition construct (m : ChatModel) : M ChatModel :=
  fun w =>
    match init_error m (environ w) with
    | None => (Val m, w)
    | Some e => (Err (Raised e), w)
    end.

Definition get_model (model_id : string) (temperature : Temperature)
    : M ChatModel :=
  let* _ := ensure_api_keys model_id in
  if startswith model_id "openai:" then
    let* model_name := index (split_1 ":"%char model_id) 1 in
    construct (ChatOpenAI model_name temperature)
  else if startswith model_id "anthropic:" then
    let* model_name := index (split_1 ":"%char model_id) 1 in
    construct (ChatAnthropic model_name temperature)
  else if startswith model_id "ollama:" then
    let* model_name := index (split_1 ":"%char model_id) 1 in
    construct (ChatOllama model_name temperature)
  else construct (ChatOllama model_id temperature).

(** *** Agent creation *)

(** The agent [create_react_agent] builds, known by the arguments of the
    call, and the name given to it afterwards. *)
Record Agent : Type := {
  agent_model : ChatModel;
  agent_tools : list Tool;
  agent_prompt : string;
  agent_checkpointer : Obj;
  agent_store : Obj;
  agent_kwargs : Kwargs;
  agent_name : string
}.

(** [await load_toolset_tools(session, toolset, debug=True)]: its debug
    lines go to the output, its exception is let through. *)
Definition await_toolset_tools (session : Session) (toolset : string)
    : M (list Tool) :=
  fun w =>
    let '(lines, r) := load_toolset_tools rt session (inl toolset) true in
    let w' :=
      {| _shared_checkpointer := _shared_checkpointer w;
         _shared_store := _shared_store w;
         _mcp_client := _mcp_client w;
         environ := environ w;
         keyboard := keyboard w;
         stdout := stdout w ++ List.map Trace lines;
         next_obj := next_obj w |} in
    match r with
    | Ok tools => (Val tools, w')
    | Raise e => (Err (Raised e), w')
    end.

(** [print(f"... Loaded {n} {kind} tools for {agent}")]: the line starts
    with a check mark, which [stdout] may be unable to encode. *)
Definition print_loaded (n : nat) (kind agent : string) : M unit :=
  if stdout_encodes_marks rt then print_out (LoadedTools n kind agent)
  else raise (Raised marks_not_encodable).

(** The context manager [agent_session()] the four factory functions
    return: entering it runs this body, which yields the agent and the
    session.  The four functions differ in the toolset loaded, the two
    labels of the line printed, the system message and the agent name. *)
Definition agent_session (client : MCPClient)
    (toolset kind label system_message name : string)
    (model_id : string) (kwargs : Kwargs) : M (Agent * Session) :=
  let session := client_session client in
  let* tools := await_toolset_tools session toolset in
  let* _ := print_loaded (length tools) kind label in
  let* llm := get_model model_id default_temperature in
  let* checkpointer := get_shared_checkpointer in
  let* store := get_shared_store in
  ret ({| agent_model := llm;
          agent_tools := tools;
          agent_prompt := system_message;
          agent_checkpointer := checkpointer;
          agent_store := store;
          agent_kwargs := kwargs;
          agent_name := name |}, session).

Definition performance_system_message : string :=
  "You are a specialized IBM i performance monitoring assistant.
You have access to comprehensive performance monitoring tools including:
- System status and activity monitoring
- Memory pool analysis
- Temporary storage tracking
- HTTP server performance metrics
- Active job analysis and CPU consumption tracking
- System value monitoring
- Collection Services configuration

Your role is to:
- Monitor and analyze system performance metrics
- Identify performance bottlenecks and resource constraints
- Provide actionable recommendations for optimization
- Explain performance data in business terms
- Help troubleshoot performance-related issues

Always explain what metrics you're checking and why they're important.
Provide context for normal vs. concerning values when analyzing data.
Focus on actionable insights rather than just presenting raw data.".

Definition discovery_system_message : string :=
  "You are a specialized IBM i system administration discovery assistant.
You help administrators get high-level overviews and summaries of system components.

Your discovery tools include:
- Service category listings and counts
- Schema-based service summaries
- SQL object type categorization
- Cross-referencing capabilities

Your role is to:
- Provide high-level system overviews and inventories
- Help administrators understand the scope and organization of system services
- Summarize system components by category, schema, and type
- Identify patterns and relationships in system organization

Focus on providing clear, organized summaries that help administrators
understand what's available on their system and how it's organized.
Use counts and categorizations to give context about system complexity.".

Definition browse_system_message : string :=
  "You are a specialized IBM i system administration browsing assistant.
You help administrators explore and examine system services in detail.

Your browsing tools include:
- Listing services by specific categories
- Exploring services within specific schemas (QSYS2, SYSTOOLS, etc.)
- Filtering services by SQL object type (VIEW, PROCEDURE, FUNCTION, etc.)
- Detailed service metadata and compatibility information

Your role is to:
- Help administrators explore specific areas of interest in depth
- Provide detailed listings and metadata for system services
- Explain service compatibility and release requirements
- Guide users through logical browsing paths

Focus on helping users navigate and understand the details of what they find.
Explain technical concepts like SQL object types and release compatibility.
Suggest related services or logical next steps in their exploration.".

Definition search_system_message : string :=
  "You are a specialized IBM i system administration search assistant.
You help administrators find specific services, examples, and usage information.

Your search capabilities include:
- Case-insensitive service name searching
- Locating services across all schemas
- Searching example code and usage patterns
- Retrieving specific service examples and documentation

Your role is to:
- Help users find specific services they're looking for
- Locate usage examples and code snippets
- Provide exact service locations and metadata
- Search through documentation and examples for keywords

Focus on helping users find exactly what they're looking for quickly.
When showing examples, explain the context and provide usage guidance.
If multiple matches are found, help users understand the differences.
Suggest related searches or alternative terms when searches yield few results.".

Definition create_performance_agent (model_id mcp_url transport : string)
    (kwargs : Kwargs) : M (M (Agent * Session)) :=
  let* client := get_mcp_client mcp_url transport in
  ret (agent_session client "performance" "performance" "Performance Agent"
         performance_system_message "IBM i Performance Monitor"
         model_id kwargs).

Definition create_sysadmin_discovery_agent
    (model_id mcp_url transport : string)
    (kwargs : Kwargs) : M (M (Agent * Session)) :=
  let* client := get_mcp_client mcp_url transport in
  ret (agent_session client "sysadmin_discovery" "sysadmin discovery"
         "Discovery Agent" discovery_system_message
         "IBM i SysAdmin Discovery" model_id kwargs).

Definition create_sysadmin_browse_agent (model_id mcp_url transport : string)
    (kwargs : Kwargs) : M (M (Agent * Session)) :=
  let* client := get_mcp_client mcp_url transport in
  ret (agent_session client "sysadmin_browse" "sysadmin browse"
         "Browse Agent" browse_system_message
         "IBM i SysAdmin Browser" model_id kwargs).

Definition create_sysadmin_search_agent (model_id mcp_url transport : string)
    (kwargs : Kwargs) : M (M (Agent * Session)) :=
  let* client := get_mcp_client mcp_url transport in
  ret (agent_session client "sysadmin_search" "sysadmin search"
         "Search Agent" search_system_message
         "IBM i SysAdmin Search" model_id kwargs).

(** *** Agent registry and factory *)

Definition Factory : Type :=
  string -> string -> string -> Kwargs -> M (M (Agent * Session)).

Definition AVAILABLE_AGENTS : list (string * Factory) :=
  [("performance", create_performance_agent);
   ("discovery", create_sysadmin_discovery_agent);
   ("browse", create_sysadmin_browse_agent);
   ("search", create_sysadmin_search_agent)].

(** [d.get(key)] on a dictionary kept as the list of its items. *)
Fixpoint dict_get {V : Type} (d : list (string * V)) (key : string)
    : option V :=
  match d with
  | [] => None
  | (k, v) :: rest => if String.eqb k key then Some v else dict_get rest key
  end.

Definition create_agent (agent_type : string)
    (model_id mcp_url transport : string) (kwargs : Kwargs)
    : M (M (Agent * Session)) :=
  match dict_get AVAILABLE_AGENTS agent_type with
  | None =>
      let available := String.concat ", " (List.map fst AVAILABLE_AGENTS) in
      raise (ValueError
               (String.append "Unknown agent type '"
                  (String.append agent_type
                     (String.append "'. Available: " available))))
  | Some factory => factory model_id mcp_url transport kwargs
  end.

Definition list_available_agents : list (string * string) :=
  [("performance", "System performance monitoring and analysis");
   ("discovery", "High-level system discovery and summarization");
   ("browse", "Detailed system browsing and exploration");
   ("search", "System search and lookup capabilities")].

End Agents.

End LangchainAgents.

(** ** Readings used for the agents *)

Module AgentReading.
Import Py FilteredMcpTools LangchainAgents.

(** The toolset each registered agent type loads its tools from. *)
Definition agent_toolset : list (string * string) :=
  [("performance", "performance");
   ("discovery", "sysadmin_discovery");
   ("browse", "sysadmin_browse");
   ("search", "sysadmin_search")].

(** The module-level globals and the object counter of a world. *)
Definition globals (w : World)
    : option Obj * option Obj * option MCPClient * Obj :=
  (_shared_checkpointer w, _shared_store w, _mcp_client w, next_obj w).

(** What the constructor call of a chat model gives in an environment:
    the model, or the exception of the constructor. *)
Definition built {Temperature : Type}
    (init_error : @ChatModel Temperature -> gmap string string -> option Exn)
    (env : gmap string string) (model : @ChatModel Temperature)
    : Outcome (@ChatModel Temperature) :=
  match init_error model env with
  | None => Val model
  | Some e => Err (Raised e)
  end.


(** The model [get_model] constructs: the provider named by the prefix
    and the text after the first colon, or Ollama with the whole
    identifier. *)
Definition model_of {Temperature : Type} (model_id : string)
    (t : Temperature) : option (@ChatModel Temperature) :=
  if startswith model_id "openai:" then
    option_map (fun n => ChatOpenAI n t) (nth_error (split_1 ":" model_id) 1)
  else if startswith model_id "anthropic:" then
    option_map (fun n => ChatAnthropic n t)
      (nth_error (split_1 ":" model_id) 1)
  else if startswith model_id "ollama:" then
    option_map (fun n => ChatOllama n t) (nth_error (split_1 ":" model_id) 1)
  else Some (ChatOllama model_id t).

End AgentReading.

(** ** A concrete world, session and agents *)

Module AgentExamples.
Import Py FilteredMcpTools Examples LangchainAgents.

(** A fresh process: no global created yet, an empty environment, nothing
    typed. *)
Definition fresh_world : World :=
  {| _shared_checkpointer := None; _shared_store := None;
     _mcp_client := None; environ := ∅; keyboard := []; stdout := [];
     next_obj := 0%nat |}.

(** A constructor in the manner of [langchain_openai]: [ChatOpenAI]
    raises when OPENAI_API_KEY is unset or empty, the other two
    constructors return. *)
Definition needs_key (m : @ChatModel nat) (env : gmap string string)
    : option Exn :=
  match m with
  | ChatOpenAI _ _ =>
      match env !! "OPENAI_API_KEY" with
      | Some (String _ _) => None
      | _ => Some (Exception "The api_key client option must be set")
      end
  | _ => None
  end.

(** Every client reaches the server of the example scenario. *)
Definition scenario_session (c : MCPClient) : Session :=
  {| listed_tools := [tool_A; tool_B; tool_C; tool_D; tool_E] |}.

(** The performance agent built first in the fresh world, with the
    temperature 3 standing for the default. *)
Definition performance_agent : @Agent nat unit :=
  {| agent_model := ChatOllama "gpt-oss:20b" 3%nat;
     agent_tools := [tool_A; tool_C];
     agent_prompt := performance_system_message;
     agent_checkpointer := 0%nat;
     agent_store := 1%nat;
     agent_kwargs := tt;
     agent_name := "IBM i Performance Monitor" |}.

(** The browse agent built after it. *)
Definition browse_agent : @Agent nat unit :=
  {| agent_model := ChatOllama "llama3.1" 3%nat;
     agent_tools := [];
     agent_prompt := browse_system_message;
     agent_checkpointer := 0%nat;
     agent_store := 1%nat;
     agent_kwargs := tt;
     agent_name := "IBM i SysAdmin Browser" |}.

End AgentExamples.

(** ** Facts about [==], [in] and sets *)

Module PyFacts.
Import Py.

Lemma b2z_inj (x y : bool) : Z.b2z x = Z.b2z y -> x = y.
Proof. destruct x, y; simpl; intros H; congruence. Qed.

(** [==] holds exactly between values with the same canonical form. *)
Lemma py_eq_norm (a b : Value) : py_eq a b = true <-> norm a = norm b.
Proof.
  revert b. induction a as [| x | x | x | xs IH] using Value_nested_ind;
    intros [| y | y | y | ys]; simpl; try (split; [discriminate | congruence]).
  - split; reflexivity.
  - rewrite Bool.eqb_true_iff. split; [congruence |].
    intros H. apply b2z_inj. congruence.
  - rewrite Z.eqb_eq. split; congruence.
  - rewrite Z.eqb_eq. split; congruence.
  - rewrite Z.eqb_eq. split; congruence.
  - rewrite String.eqb_eq. split; congruence.
  - revert ys. induction IH as [| x xs Hx _ IHxs]; intros [| y ys]; simpl;
      try (split; [discriminate | congruence]).
    + split; reflexivity.
    + rewrite andb_true_iff, Hx, IHxs. split.
      * intros [H1 H2]. congruence.
      * intros H. injection H as H1 H2. split; congruence.
Qed.

Lemma py_eq_refl (a : Value) : py_eq a a = true.
Proof. apply py_eq_norm. reflexivity. Qed.

Lemma py_eq_sym (a b : Value) : py_eq a b = py_eq b a.
Proof.
  destruct (py_eq a b) eqn:E1, (py_eq b a) eqn:E2; try reflexivity.
  - apply py_eq_norm in E1. symmetry in E1. apply py_eq_norm in E1. congruence.
  - apply py_eq_norm in E2. symmetry in E2. apply py_eq_norm in E2. congruence.
Qed.

Lemma py_eq_trans (a b c : Value) :
  py_eq a b = true -> py_eq b c = true -> py_eq a c = true.
Proof. rewrite !py_eq_norm. congruence. Qed.

(** On strings [==] is plain equality. *)
Lemma py_eq_str (s : string) (v : Value) :
  py_eq (VStr s) v = true <-> v = VStr s.
Proof.
  destruct v; simpl; try (split; [discriminate | congruence]).
  rewrite String.eqb_eq. split; congruence.
Qed.

(** A list never equals a value that is no list. *)
Lemma py_eq_list_nonlist (l : list Value) (v : Value) :
  is_list v = false -> py_eq (VList l) v = false.
Proof. destruct v; simpl; congruence. Qed.

(** [None] equals no scalar. *)
Lemma py_eq_none_scalar (v : Value) : scalar v = true -> py_eq VNone v = false.
Proof. destruct v; simpl; congruence. Qed.

(** [==] against a scalar: the same value, or a boolean and an integer
    that stand for the same number. *)
Lemma py_eq_scalar (a f : Value) :
  scalar f = true ->
  (py_eq a f = true <->
   a = f \/ exists n, as_int a = Some n /\ as_int f = Some n).
Proof.
  intros Hf. destruct f as [| y | y | y |]; try discriminate;
    destruct a as [| x | x | x | xs]; simpl;
    try (split; [discriminate | intros [H | (n & H1 & H2)]; congruence]).
  - rewrite Bool.eqb_true_iff. split; [intros ->; by left |].
    intros [H | (n & H1 & H2)]; [congruence |]. apply b2z_inj. congruence.
  - rewrite Z.eqb_eq. split; [intros ->; right; eauto |].
    intros [H | (n & H1 & H2)]; congruence.
  - rewrite Z.eqb_eq. split; [intros <-; right; eauto |].
    intros [H | (n & H1 & H2)]; congruence.
  - rewrite Z.eqb_eq. split; [intros ->; by left |].
    intros [H | (n & H1 & H2)]; congruence.
  - rewrite String.eqb_eq. split; [intros ->; by left |].
    intros [H | (n & H1 & H2)]; congruence.
Qed.

Lemma py_in_spec (x : Value) (l : list Value) :
  py_in x l = true <-> exists y, In y l /\ py_eq x y = true.
Proof. unfold py_in. apply existsb_exists. Qed.

Lemma py_in_app (x : Value) (l1 l2 : list Value) :
  py_in x (l1 ++ l2) = py_in x l1 || py_in x l2.
Proof. unfold py_in. apply existsb_app. Qed.

Lemma py_in_none_scalars (l : list Value) :
  Forall (fun v => scalar v = true) l -> py_in VNone l = false.
Proof.
  induction 1 as [| v l Hv _ IH]; simpl; [reflexivity |].
  destruct v; simpl in *; congruence.
Qed.

(** Building a set succeeds exactly when every element is hashable. *)
Lemma set_update_ok (l : list Value) (s : PySet) :
  Forall (fun v => hashable v = true) l -> exists s', set_update s l = Ok s'.
Proof.
  intros H. revert s. induction H as [| x l Hx _ IH]; intros s; simpl.
  - eauto.
  - unfold set_add. rewrite Hx. simpl. apply IH.
Qed.

Lemma set_update_raise (l : list Value) (s : PySet) :
  Exists (fun v => hashable v = false) l ->
  set_update s l = Raise (TypeError "unhashable type: 'list'").
Proof.
  revert s. induction l as [| x l IH]; intros s H; [by inversion H |].
  simpl. unfold set_add. destruct (hashable x) eqn:Hx; [| reflexivity].
  simpl. apply IH. inversion H; subst; [congruence | assumption].
Qed.

(** The members of the set built from [l] on top of [s] are members of
    [s] or of [l], and every member of [s] or [l] equals ([==]) one. *)
Lemma set_update_sound (l : list Value) (s s' : PySet) :
  set_update s l = Ok s' -> forall x, In x s' -> In x s \/ In x l.
Proof.
  revert s. induction l as [| y l IH]; intros s H x Hx; simpl in H.
  - left. congruence.
  - unfold set_add in H. destruct (hashable y); [| discriminate].
    simpl in H. destruct (IH _ H x Hx) as [Hs | Hl]; [| right; by right].
    destruct (py_in y s); [by left |].
    apply in_app_or in Hs as [Hs | [<- | []]]; [by left | right; by left].
Qed.

Lemma set_update_complete (l : list Value) (s s' : PySet) :
  set_update s l = Ok s' ->
  forall x, py_in x s = true \/ py_in x l = true -> py_in x s' = true.
Proof.
  revert s. induction l as [| y l IH]; intros s H x Hx; simpl in H.
  - destruct Hx as [Hx | Hx]; [congruence | discriminate].
  - unfold set_add in H. destruct (hashable y); [| discriminate].
    simpl in H. apply (IH _ H). destruct Hx as [Hx | Hx].
    + left. destruct (py_in y s); [assumption |].
      rewrite py_in_app, Hx. reflexivity.
    + simpl in Hx. apply orb_true_iff in Hx as [Hx | Hx]; [| by right].
      left. destruct (py_in y s) eqn:Hy.
      * apply py_in_spec in Hy as (z & Hz & Hyz). apply py_in_spec.
        exists z. split; [assumption |]. eapply py_eq_trans; eassumption.
      * rewrite py_in_app. simpl. rewrite Hx. apply orb_true_r.
Qed.

Lemma set_truthy_and (s1 s2 : PySet) :
  set_truthy (set_and s1 s2) = true <->
  exists x, In x s1 /\ py_in x s2 = true.
Proof.
  unfold set_and. split.
  - destruct (List.filter _ s1) as [| x r] eqn:E; [discriminate |].
    intros _. exists x.
    apply (proj1 (filter_In (fun x => py_in x s2) x s1)). rewrite E. by left.
  - intros (x & Hx & Hin).
    assert (H : In x (List.filter (fun x => py_in x s2) s1))
      by (apply filter_In; auto).
    destruct (List.filter _ s1); [destruct H | reflexivity].
Qed.

(** [bool(set(a) & set(f))] for lists of hashable values: the truth value
    says whether some element of [a] equals ([==]) some element of [f]. *)
Lemma sets_intersect (a f : list Value) (sa sf : PySet) :
  py_set a = Ok sa -> py_set f = Ok sf ->
  (set_truthy (set_and sa sf) = true <->
   exists x y, In x a /\ In y f /\ py_eq x y = true).
Proof.
  unfold py_set. intros Ha Hf. rewrite set_truthy_and. split.
  - intros (x & Hx & Hin).
    apply (set_update_sound _ _ _ Ha) in Hx as [[] | Hx].
    apply py_in_spec in Hin as (y & Hy & Hxy).
    apply (set_update_sound _ _ _ Hf) in Hy as [[] | Hy]. eauto.
  - intros (x & y & Hx & Hy & Hxy).
    assert (H1 : py_in x sa = true).
    { apply (set_update_complete _ _ _ Ha). right. apply py_in_spec.
      exists x. split; [assumption | apply py_eq_refl]. }
    apply py_in_spec in H1 as (x' & Hx' & Hxx').
    exists x'. split; [assumption |].
    apply (set_update_complete _ _ _ Hf). right. apply py_in_spec.
    exists y. split; [assumption |].
    eapply py_eq_trans; [| eassumption]. rewrite py_eq_sym. assumption.
Qed.

End PyFacts.

(** ** Facts about the functions of the module *)

Module FilterFacts.
Import Py PyFacts FilteredMcpTools Reading.

#[local] Abbreviation hashable_all l := (Forall (fun v => hashable v = true) l).

Lemma bind_ok_r {A : Type} (m : Result A) : (x <- m ;; Ok x) = m.
Proof. by destruct m. Qed.

(** *** [_get_annotation_value] *)

(** The value of the key in the metadata dictionary, and [None] in every
    other case: no attribute, [None], an empty dictionary, a missing key,
    or an object whose [get] fails. *)
Lemma get_annotation_value_spec (tool : Tool) (key : string) :
  _get_annotation_value tool key =
  match metadata tool with
  | MetaDict d => default VNone (d !! key)
  | _ => VNone
  end.
Proof.
  unfold _get_annotation_value, get_annotation_value_try, has_metadata,
    metadata_truthy, metadata_get.
  destruct (metadata tool) as [| | d |]; simpl; try reflexivity.
  destruct (Nat.eqb (size d) 0) eqn:E; simpl; [| reflexivity].
  apply Nat.eqb_eq, map_size_empty_inv in E. subst d.
  by rewrite lookup_empty.
Qed.

(** The [try] statement of the function returns: the second branch of
    [_get_annotation_value] is never taken. *)
Lemma get_annotation_value_returns (tool : Tool) (key : string) :
  get_annotation_value_try tool key = Ok (_get_annotation_value tool key).
Proof.
  unfold _get_annotation_value, get_annotation_value_try, has_metadata,
    metadata_truthy, metadata_get.
  destruct (metadata tool) as [| | d |]; simpl; try reflexivity.
  by destruct (Nat.eqb (size d) 0).
Qed.

Lemma get_annotation_value_lacking (tool : Tool) (key : string) :
  lacks_annotation tool key -> _get_annotation_value tool key = VNone.
Proof.
  rewrite get_annotation_value_spec. unfold lacks_annotation.
  destruct (metadata tool); try reflexivity. by intros ->.
Qed.

(** *** [_annotation_value_matches_filter] *)

Lemma matches_callable (a : Value) (f : Callable Value) :
  _annotation_value_matches_filter a (FCallable f) =
  match f a with
  | Ok r => Ok (truthy r)
  | Raise e => if is_exception e then Ok false else Raise e
  end.
Proof. simpl. by destruct (f a). Qed.

Lemma matches_primitive (a v : Value) :
  is_list v = false ->
  _annotation_value_matches_filter a (FData v) = Ok (py_eq a v).
Proof. by destruct v. Qed.

Lemma matches_list_single (a : Value) (fl : list Value) :
  is_list a = false ->
  _annotation_value_matches_filter a (FData (VList fl)) = Ok (py_in a fl).
Proof. by destruct a. Qed.

Lemma matches_list_list (al fl : list Value) :
  hashable_all al -> hashable_all fl ->
  exists b,
    _annotation_value_matches_filter (VList al) (FData (VList fl)) = Ok b /\
    (b = true <-> exists x y, In x al /\ In y fl /\ py_eq x y = true).
Proof.
  intros Ha Hf. simpl.
  destruct (set_update_ok al [] Ha) as [sa Hsa].
  destruct (set_update_ok fl [] Hf) as [sf Hsf].
  unfold py_set. rewrite Hsa. simpl. rewrite Hsf. simpl.
  eexists. split; [reflexivity |]. by apply sets_intersect.
Qed.

Lemma hashable_all_dec (l : list Value) :
  hashable_all l \/ Exists (fun v => hashable v = false) l.
Proof.
  induction l as [| x l [IH | IH]]; [left; constructor | |].
  - destruct (hashable x) eqn:Hx; [left | right]; by constructor.
  - right. by constructor.
Qed.

(** The function raises in two ways only: the [TypeError] of building a
    set from a list with an unhashable element, and an exception of the
    predicate that is no [Exception]. *)
Lemma matches_raise (a : Value) (fv : FilterValue) (e : Exn) :
  _annotation_value_matches_filter a fv = Raise e ->
  (e = TypeError "unhashable type: 'list'" /\
   exists al fl, a = VList al /\ fv = FData (VList fl) /\
     (Exists (fun v => hashable v = false) al \/
      Exists (fun v => hashable v = false) fl)) \/
  (is_exception e = false /\ exists f, fv = FCallable f /\ f a = Raise e).
Proof.
  destruct fv as [f | v].
  { rewrite matches_callable. destruct (f a) as [r | e'] eqn:E; [done |].
    destruct (is_exception e') eqn:Ee; [done |]. intros [= <-].
    right. split; [done |]. by exists f. }
  destruct v as [| | | | fl]; try by rewrite matches_primitive.
  destruct a as [| | | | al]; try by rewrite matches_list_single.
  simpl. unfold py_set. intros H. left.
  destruct (hashable_all_dec al) as [Ha | Ha].
  - destruct (set_update_ok al [] Ha) as [sa Hsa]. rewrite Hsa in H.
    simpl in H.
    destruct (hashable_all_dec fl) as [Hf | Hf].
    + destruct (set_update_ok fl [] Hf) as [sf Hsf]. by rewrite Hsf in H.
    + rewrite (set_update_raise fl [] Hf) in H. simpl in H.
      injection H as <-. eauto 8.
  - rewrite (set_update_raise al [] Ha) in H. simpl in H.
    injection H as <-. eauto 8.
Qed.

(** *** [_should_include_tool] *)

Lemma custom_filter_passes_truthy_object (tool : Tool) (o : CallableObject) :
  truth_value o = true ->
  custom_filter_passes tool (Some o) =
  match call o tool with
  | Ok r => Ok (truthy r)
  | Raise e => if is_exception e then Ok false else Raise e
  end.
Proof.
  simpl. intros ->. destruct (call o tool) as [r | e]; simpl; [| done].
  by destruct (truthy r).
Qed.

Lemma custom_filter_passes_some (tool : Tool) (cf : Callable Tool) :
  custom_filter_passes tool (Some (func cf)) =
  match cf tool with
  | Ok r => Ok (truthy r)
  | Raise e => if is_exception e then Ok false else Raise e
  end.
Proof. by apply custom_filter_passes_truthy_object. Qed.

(** A custom filter that is [None] or falsy is not called. *)
Lemma custom_filter_passes_falsy (tool : Tool) (P : option CallableObject) :
  custom_truthy P = false -> custom_filter_passes tool P = Ok true.
Proof. destruct P as [o |]; simpl; [by intros -> | done]. Qed.

Lemma custom_filter_passes_spec (tool : Tool) (P : option CallableObject) :
  custom_filter_passes tool P = Ok true <->
  (custom_truthy P = true ->
   exists o r, P = Some o /\ call o tool = Ok r /\ truthy r = true).
Proof.
  destruct (custom_truthy P) eqn:EP.
  - destruct P as [o |]; [| done]. simpl in EP.
    rewrite custom_filter_passes_truthy_object by done.
    destruct (call o tool) as [r | e] eqn:E.
    + split.
      * intros [= H] _. by exists o, r.
      * intros H. destruct (H eq_refl) as (o' & r' & [= <-] & Hr & Ht).
        rewrite E in Hr. injection Hr as <-. by rewrite Ht.
    + split; [by destruct (is_exception e) |].
      intros H. destruct (H eq_refl) as (o' & r' & [= <-] & Hr & _).
      by rewrite E in Hr.
  - rewrite custom_filter_passes_falsy by done. done.
Qed.

Lemma custom_filter_passes_raise (tool : Tool) (P : option CallableObject)
    (e : Exn) :
  custom_filter_passes tool P = Raise e ->
  is_exception e = false /\
  exists o, P = Some o /\ truth_value o = true /\ call o tool = Raise e.
Proof.
  destruct P as [o |]; [| done]. destruct (truth_value o) eqn:Eo.
  - rewrite custom_filter_passes_truthy_object by done.
    destruct (call o tool) as [r | e'] eqn:E; [done |].
    destruct (is_exception e') eqn:Ee; [done |]. intros [= <-].
    split; [done |]. by exists o.
  - by rewrite custom_filter_passes_falsy.
Qed.

Lemma match_items_true (tool : Tool) (F : FilterSpec) :
  match_items tool F = Ok true <->
  Forall (fun kv => key_matches tool kv.1 kv.2 = Ok true) F.
Proof.
  induction F as [| [k fv] F IH]; simpl.
  - split; [constructor | done].
  - rewrite Forall_cons. unfold key_matches at 1. simpl.
    destruct (_annotation_value_matches_filter _ fv) as [[|] | e]; simpl.
    + rewrite IH. split; [by split | by intros [_ ?]].
    + split; [done | by intros [? _]].
    + split; [done | by intros [? _]].
Qed.

(** The loop stops at the first key that does not match (or raises):
    what follows that key has no part in the outcome. *)
Lemma match_items_stop (tool : Tool) (pre rest : FilterSpec)
    (k : string) (fv : FilterValue) :
  Forall (fun kv => key_matches tool kv.1 kv.2 = Ok true) pre ->
  match_items tool (pre ++ (k, fv) :: rest) =
  match key_matches tool k fv with
  | Ok true => match_items tool rest
  | r => r
  end.
Proof.
  induction 1 as [| [k' fv'] pre Hk _ IH]; simpl.
  - unfold key_matches.
    by destruct (_annotation_value_matches_filter _ fv) as [[|] | e].
  - unfold key_matches in Hk. simpl in Hk. rewrite Hk. simpl. apply IH.
Qed.

Lemma should_include_true (tool : Tool) (F : option FilterSpec)
    (P : option CallableObject) :
  _should_include_tool tool F P = Ok true <->
  custom_filter_passes tool P = Ok true /\
  Forall (fun kv => key_matches tool kv.1 kv.2 = Ok true) (items F).
Proof.
  unfold _should_include_tool.
  destruct (custom_filter_passes tool P) as [[|] | e]; simpl;
    [| split; [done | by intros [? _]] | split; [done | by intros [? _]]].
  destruct F as [[| kv F] |]; simpl filters_truthy; cbv iota.
  - simpl. split; [by split; [| constructor] | done].
  - rewrite match_items_true. split; [by split | by intros [_ ?]].
  - simpl. split; [by split; [| constructor] | done].
Qed.

Lemma should_include_custom_fails (tool : Tool) (F : option FilterSpec)
    (P : option CallableObject) :
  custom_filter_passes tool P = Ok false ->
  _should_include_tool tool F P = Ok false.
Proof. unfold _should_include_tool. by intros ->. Qed.

Lemma should_include_no_filters (tool : Tool) (F : option FilterSpec)
    (P : option CallableObject) :
  filters_truthy F = false -> custom_truthy P = false ->
  _should_include_tool tool F P = Ok true.
Proof.
  unfold _should_include_tool. intros -> HP.
  by rewrite custom_filter_passes_falsy.
Qed.

Lemma included_true (F : option FilterSpec) (P : option CallableObject)
    (tool : Tool) :
  included F P tool = true <-> _should_include_tool tool F P = Ok true.
Proof.
  unfold included.
  destruct (_should_include_tool tool F P) as [[|] | e]; split; congruence.
Qed.

Lemma included_ok (F : option FilterSpec) (P : option CallableObject)
    (tool : Tool) (b : bool) :
  _should_include_tool tool F P = Ok b -> included F P tool = b.
Proof. unfold included. by intros ->. Qed.

Lemma match_items_raise (tool : Tool) (entries : FilterSpec) (e : Exn) :
  match_items tool entries = Raise e ->
  (e = TypeError "unhashable type: 'list'" /\
   exists k fl al, In (k, FData (VList fl)) entries /\
     _get_annotation_value tool k = VList al /\
     (Exists (fun v => hashable v = false) al \/
      Exists (fun v => hashable v = false) fl)) \/
  (is_exception e = false /\
   exists k f, In (k, FCallable f) entries /\
     f (_get_annotation_value tool k) = Raise e).
Proof.
  induction entries as [| [k fv] entries IH]; simpl; [done |].
  destruct (_annotation_value_matches_filter _ fv) as [[|] | e'] eqn:E; simpl.
  - intros H. destruct (IH H) as [(-> & k' & fl & al & Hin & Hrest)
      | (He & k' & f & Hin & Hf)].
    + left. split; [done |]. exists k', fl, al. split; [by right | done].
    + right. split; [done |]. exists k', f. split; [by right | done].
  - done.
  - intros [= ->]. apply matches_raise in E
      as [(-> & al & fl & Ha & -> & Hex) | (He & f & -> & Hf)].
    + left. split; [done |]. exists k, fl, al. split; [by left | done].
    + right. split; [done |]. exists k, f. split; [by left | done].
Qed.

(** [_should_include_tool] raises in two ways only: through a key whose
    filter value and annotation value are both lists, one of them with an
    unhashable element, and through a callable (the custom filter or a
    predicate of the spec) that raises what is no [Exception]. *)
Lemma should_include_raise (tool : Tool) (F : option FilterSpec)
    (P : option CallableObject) (e : Exn) :
  _should_include_tool tool F P = Raise e ->
  (e = TypeError "unhashable type: 'list'" /\ unhashable_key F tool) \/
  (is_exception e = false /\ callable_raises F P tool e).
Proof.
  unfold _should_include_tool.
  destruct (custom_filter_passes tool P) as [[|] | e'] eqn:EP; simpl.
  - destruct (filters_truthy F); [| done]. intros H.
    apply match_items_raise in H as [[-> H] | [He (k & f & H)]].
    + left. done.
    + right. split; [done |]. right. by exists k, f.
  - done.
  - intros [= ->]. apply custom_filter_passes_raise in EP as [He H].
    right. split; [done |]. by left.
Qed.

(** *** Output and outcome of a computation that writes *)

Lemma snd_io_bind {A B : Type} (m : Io A) (k : A -> Io B) :
  snd (io_bind m k) = (a <- snd m ;; snd (k a)).
Proof. destruct m as [out [a | e]]; simpl; [| done]. by destruct (k a). Qed.

Lemma fst_io_bind {A B : Type} (m : Io A) (k : A -> Io B) :
  fst (io_bind m k) =
  fst m ++ match snd m with Ok a => fst (k a) | Raise _ => [] end.
Proof.
  destruct m as [out [a | e]]; simpl; [| by rewrite app_nil_r].
  by destruct (k a).
Qed.

Lemma snd_print (rt : Runtime) (line : DebugLine) :
  snd (print rt line) =
  match line_error rt line with None => Ok tt | Some e => Raise e end.
Proof. unfold print. by destruct (line_error rt line). Qed.

Lemma fst_print (rt : Runtime) (line : DebugLine) :
  fst (print rt line) =
  match line_error rt line with None => [line] | Some _ => [] end.
Proof. unfold print. by destruct (line_error rt line). Qed.

Lemma line_error_print_error (rt : Runtime) (line : DebugLine) (e : Exn) :
  line_error rt line = Some e -> print_error e = true.
Proof.
  destruct line as [| | [d |] | | |]; simpl; try done.
  - destruct (filters_str_ok rt d); [done |]. by intros [= <-].
  - destruct (stdout_encodes_marks rt); [done |]. by intros [= <-].
  - destruct (stdout_encodes_marks rt); [done |]. by intros [= <-].
Qed.

(** *** The lines of the tools *)

Lemma format_annotations_ok (rt : Runtime) (tool : Tool)
    (entries : FilterSpec) (info : list (string * Value)) :
  format_annotations rt tool entries = Ok info ->
  info = List.map (fun kv => (fst kv, _get_annotation_value tool (fst kv)))
           entries.
Proof.
  revert info. induction entries as [| [k fv] entries IH]; simpl; intros info.
  - by intros [= <-].
  - destruct (str_ok rt (_get_annotation_value tool k)); [| done].
    destruct (format_annotations rt tool entries) as [i |]; [| done].
    simpl. intros [= <-]. by rewrite (IH i).
Qed.

Lemma format_annotations_raise (rt : Runtime) (tool : Tool)
    (entries : FilterSpec) (e : Exn) :
  format_annotations rt tool entries = Raise e -> e = digits_exceeded.
Proof.
  induction entries as [| [k fv] entries IH]; simpl; [done |].
  destruct (str_ok rt (_get_annotation_value tool k)); [| by intros [= <-]].
  destruct (format_annotations rt tool entries) as [i |]; [done |].
  simpl. intros [= <-]. by apply IH.
Qed.

(** What is formatted for an excluded tool depends on the keys of the
    spec only, not on the filter values. *)
Lemma format_annotations_keys (rt : Runtime) (tool : Tool)
    (F1 F2 : FilterSpec) :
  List.map fst F1 = List.map fst F2 ->
  format_annotations rt tool F1 = format_annotations rt tool F2.
Proof.
  revert F2. induction F1 as [| [k fv] F1 IH]; intros [| [k' fv'] F2];
    simpl; try done.
  intros [= <- H]. by rewrite (IH F2 H).
Qed.

Lemma format_annotations_is_ok (rt : Runtime) (tool : Tool)
    (entries : FilterSpec) :
  is_ok (format_annotations rt tool entries) =
  forallb (fun kv => str_ok rt (_get_annotation_value tool (fst kv))) entries.
Proof.
  induction entries as [| [k fv] entries IH]; simpl; [done |].
  destruct (str_ok rt (_get_annotation_value tool k)); [| done].
  rewrite <- IH. by destruct (format_annotations rt tool entries).
Qed.

Lemma format_annotations_app (rt : Runtime) (tool : Tool)
    (F1 F2 : FilterSpec) :
  is_ok (format_annotations rt tool (F1 ++ F2)) =
  is_ok (format_annotations rt tool F1)
  && is_ok (format_annotations rt tool F2).
Proof. rewrite !format_annotations_is_ok. apply forallb_app. Qed.

Lemma annotations_info_ok (rt : Runtime) (tool : Tool)
    (F : option FilterSpec) (info : list (string * Value)) :
  annotations_info rt tool F = Ok info -> info = annotation_pairs tool F.
Proof.
  unfold annotations_info, annotation_pairs.
  destruct (filters_truthy F); [apply format_annotations_ok |].
  by intros [= <-].
Qed.

Lemma line_error_of_print_error (rt : Runtime) (F : option FilterSpec)
    (tool : Tool) (b : bool) (e : Exn) :
  line_error_of rt F tool b = Some e -> print_error e = true.
Proof.
  unfold line_error_of. destruct b; [apply line_error_print_error |].
  destruct (annotations_info rt tool F) as [info | e'] eqn:E;
    [apply line_error_print_error |].
  intros [= <-]. unfold annotations_info in E.
  destruct (filters_truthy F); [| done].
  by apply format_annotations_raise in E as ->.
Qed.

(** A tool line that is written shows that the marks can be encoded. *)
Lemma line_error_of_marks (rt : Runtime) (F : option FilterSpec)
    (tool : Tool) (b : bool) :
  line_error_of rt F tool b = None -> stdout_encodes_marks rt = true.
Proof.
  unfold line_error_of. destruct b; simpl.
  - by destruct (stdout_encodes_marks rt).
  - destruct (annotations_info rt tool F); [| done]. simpl.
    by destruct (stdout_encodes_marks rt).
Qed.

Lemma line_error_of_included (rt : Runtime) (F : option FilterSpec)
    (tool : Tool) :
  stdout_encodes_marks rt = true -> line_error_of rt F tool true = None.
Proof. unfold line_error_of. simpl. by intros ->. Qed.

Lemma line_error_of_excluded (rt : Runtime) (F : option FilterSpec)
    (tool : Tool) :
  line_error_of rt F tool false = None <->
  stdout_encodes_marks rt = true /\
  is_ok (annotations_info rt tool F) = true.
Proof.
  unfold line_error_of.
  destruct (annotations_info rt tool F); simpl;
    [| split; [done | by intros [_ ?]]].
  destruct (stdout_encodes_marks rt); split; try done. by intros [? _].
Qed.

(** *** Generic list facts *)

Lemma filter_bool_sublist {A : Type} (f : A -> bool) (l : list A) :
  sublist (List.filter f l) l.
Proof.
  induction l as [| x l IH]; simpl; [constructor |].
  destruct (f x); by constructor.
Qed.

Lemma sublist_count_occ {A : Type} (dec : forall x y : A, {x = y} + {x <> y})
    (l1 l2 : list A) (x : A) :
  sublist l1 l2 -> (count_occ dec l1 x <= count_occ dec l2 x)%nat.
Proof.
  induction 1 as [| y l1 l2 _ IH | y l1 l2 _ IH]; simpl.
  - lia.
  - destruct (dec y x); lia.
  - destruct (dec y x); lia.
Qed.

Lemma filter_bool_all {A : Type} (f : A -> bool) (l : list A) :
  Forall (fun x => f x = true) l -> List.filter f l = l.
Proof. induction 1 as [| x l Hx _ IH]; simpl; [done |]. by rewrite Hx, IH. Qed.

Lemma filter_bool_kept {A : Type} (f : A -> bool) (l : list A) :
  Forall (fun x => f x = true) (List.filter f l).
Proof.
  induction l as [| x l IH]; simpl; [constructor |].
  destruct (f x) eqn:Hx; [by constructor | done].
Qed.

(** *** Collecting what a judge keeps *)

Lemma collect_ok (judge : Tool -> Result bool) (L res : list Tool) :
  collect judge L = Ok res <->
  Forall (fun t => is_ok (judge t) = true) L /\
  res = List.filter
          (fun t => match judge t with Ok b => b | Raise _ => false end) L.
Proof.
  revert res. induction L as [| t L IH]; intros res; simpl.
  - split; [intros [= <-]; by split | by intros [_ ->]].
  - destruct (judge t) as [b | e] eqn:E; simpl.
    + destruct (collect judge L) as [kept | e]; simpl.
      * destruct (proj1 (IH kept) eq_refl) as [Hall ->]. split.
        -- intros [= <-]. split; [| by destruct b].
           constructor; [by rewrite E | done].
        -- intros [_ ->]. by destruct b.
      * split; [done |]. intros [Hall _]. apply Forall_cons in Hall as [_ Hall].
        by pose proof (proj2 (IH _) (conj Hall eq_refl)).
    + split; [done |]. intros [Hall _]. apply Forall_cons in Hall as [Ht _].
      by rewrite E in Ht.
Qed.


Section Loop.

Context (rt : Runtime) (F : option FilterSpec) (P : option CallableObject).

(** No exception: [_should_include_tool] returns a value for the tool. *)
#[local] Abbreviation no_raise :=
  (fun t => is_ok (_should_include_tool t F P) = true).

Lemma judged_quiet (t : Tool) :
  judged rt F P false t = _should_include_tool t F P.
Proof. unfold judged. by destruct (_should_include_tool t F P). Qed.

Lemma judged_ok (d : bool) (t : Tool) (b : bool) :
  judged rt F P d t = Ok b <->
  _should_include_tool t F P = Ok b /\
  (d = true -> tool_line_error rt F P t = None).
Proof.
  unfold judged, tool_line_error, included.
  destruct (_should_include_tool t F P) as [b' | e]; simpl;
    [| split; [done | by intros [? _]]].
  destruct d.
  - destruct (line_error_of rt F t b') as [e |] eqn:E.
    + split; [done |]. intros [_ H]. by specialize (H eq_refl).
    + split; [by intros [= <-] | by intros [[= <-] _]].
  - split; [by intros [= <-] | by intros [[= <-] _]].
Qed.

Lemma judged_is_ok (d : bool) (t : Tool) :
  is_ok (judged rt F P d t) = true <->
  no_raise t /\ (d = true -> tool_line_error rt F P t = None).
Proof.
  destruct (judged rt F P d t) as [b | e] eqn:E; simpl.
  - apply judged_ok in E as [E Hl]. rewrite E. done.
  - split; [done |]. intros [Hn Hl].
    destruct (_should_include_tool t F P) as [b |] eqn:Eb; [| done].
    by rewrite (proj2 (judged_ok d t b) (conj Eb Hl)) in E.
Qed.

Lemma judged_value (d : bool) (t : Tool) :
  is_ok (judged rt F P d t) = true ->
  match judged rt F P d t with Ok b => b | Raise _ => false end
  = included F P t.
Proof.
  destruct (judged rt F P d t) as [b | e] eqn:E; [| done]. intros _.
  apply judged_ok in E as [E _]. symmetry. by apply included_ok.
Qed.

Lemma judged_raise (d : bool) (t : Tool) (e : Exn) :
  judged rt F P d t = Raise e ->
  _should_include_tool t F P = Raise e \/ (d = true /\ print_error e = true).
Proof.
  unfold judged.
  destruct (_should_include_tool t F P) as [b | e']; simpl;
    [| intros [= ->]; by left].
  destruct d; [| done].
  destruct (line_error_of rt F t b) as [e' |] eqn:E; [| done].
  intros [= ->]. right. split; [done |].
  by apply line_error_of_print_error in E.
Qed.

(** The value of the loop: the tools the turns keep, appended to
    [filtered_tools], unless a turn raises. *)
Lemma filter_loop_collect (d : bool) (L acc : list Tool) :
  snd (filter_loop rt F P d L acc) =
  (kept <- collect (judged rt F P d) L ;; Ok (acc ++ kept)).
Proof.
  revert acc. induction L as [| t L IH]; intros acc;
    cbn [filter_loop collect].
  - simpl. by rewrite app_nil_r.
  - rewrite snd_io_bind. cbn [io_lift snd]. unfold judged at 1.
    destruct (_should_include_tool t F P) as [[|] | e]; cbn [bind];
      [| | done].
    + rewrite snd_io_bind. unfold debug_print, line_error_of.
      destruct d.
      * rewrite snd_print.
        destruct (line_error rt (IncludingTool (name t))); cbn [bind];
          [done |].
        rewrite IH. destruct (collect _ L); simpl; [| done].
        by rewrite <- app_assoc.
      * cbn [io_ret snd bind]. rewrite IH.
        destruct (collect _ L); simpl; [| done]. by rewrite <- app_assoc.
    + unfold line_error_of. destruct d.
      * rewrite snd_io_bind. cbn [io_lift snd].
        destruct (annotations_info rt t F) as [info | e]; cbn [bind];
          [| done].
        rewrite snd_io_bind, snd_print.
        destruct (line_error rt (ExcludingTool (name t) info)); cbn [bind];
          [done |].
        rewrite IH. by destruct (collect _ L).
      * rewrite IH. by destruct (collect _ L).
Qed.

(** Without [debug] the loop writes nothing. *)
Lemma filter_loop_quiet (L acc : list Tool) :
  fst (filter_loop rt F P false L acc) = [].
Proof.
  revert acc. induction L as [| t L IH]; intros acc;
    cbn [filter_loop]; [done |].
  rewrite fst_io_bind. cbn [io_lift fst snd app].
  destruct (_should_include_tool t F P) as [[|] | e]; [| | done].
  - rewrite fst_io_bind. cbn [debug_print io_ret fst snd app]. apply IH.
  - apply IH.
Qed.

(** With [debug], when the loop returns, it has written one line per
    tool, in order. *)
Lemma filter_loop_lines (L acc res : list Tool) :
  snd (filter_loop rt F P true L acc) = Ok res ->
  fst (filter_loop rt F P true L acc) = List.map (rationale F P) L.
Proof.
  revert acc. induction L as [| t L IH]; intros acc;
    cbn [filter_loop]; [done |].
  rewrite snd_io_bind, fst_io_bind. cbn [io_lift fst snd app List.map].
  unfold rationale at 1, included.
  destruct (_should_include_tool t F P) as [[|] | e]; cbn [bind];
    [| | done].
  - rewrite snd_io_bind, fst_io_bind. unfold debug_print.
    rewrite snd_print, fst_print.
    destruct (line_error rt (IncludingTool (name t))); cbn [bind];
      [done |].
    intros H. by rewrite (IH _ H).
  - rewrite snd_io_bind, fst_io_bind. cbn [io_lift fst snd app].
    destruct (annotations_info rt t F) as [info | e] eqn:E; cbn [bind];
      [| done].
    rewrite snd_io_bind, fst_io_bind, snd_print, fst_print.
    destruct (line_error rt (ExcludingTool (name t) info)); cbn [bind];
      [done |].
    intros H. rewrite (IH _ H). by rewrite (annotations_info_ok _ _ _ _ E).
Qed.

Lemma early_return_iff :
  returns_all F P = true <->
  filters_truthy F = false /\ custom_truthy P = false.
Proof.
  unfold returns_all.
  destruct (filters_truthy F), (custom_truthy P); simpl; split; try done;
    by intros [? ?].
Qed.

Lemma snd_debug_print (d : bool) (line : DebugLine) :
  snd (debug_print rt d line) =
  if d then match line_error rt line with None => Ok tt | Some e => Raise e end
  else Ok tt.
Proof. unfold debug_print. destruct d; [apply snd_print | done]. Qed.

(** The filtering pass, as a value: all tools at the early return;
    otherwise, unless the line of the filters raises, what the turns of
    the loop keep. *)
Lemma filterTools_unfold (L : list Tool) (d : bool) :
  filterTools rt L F P d =
  if returns_all F P then Ok L
  else
    match (if d then header_error rt F else None) with
    | Some e => Raise e
    | None => collect (judged rt F P d) L
    end.
Proof.
  unfold filterTools, load_filtered_mcp_tools, load_mcp_tools, returns_all,
    header_error.
  cbn [listed_tools]. rewrite snd_io_bind, snd_debug_print.
  assert (H1 : forall n,
    (if d then match line_error rt (LoadedTotal n) with
               | None => Ok tt | Some e => Raise e end else Ok tt) = Ok tt)
    by (intros n; by destruct d).
  rewrite H1. cbn [bind].
  destruct (negb (filters_truthy F) && negb (custom_truthy P)).
  - rewrite snd_io_bind, snd_debug_print. by destruct d.
  - rewrite snd_io_bind, snd_debug_print.
    destruct d.
    + destruct (line_error rt _) as [e |]; cbn [bind]; [done |].
      rewrite snd_io_bind, filter_loop_collect.
      destruct (collect _ L) as [kept | e]; cbn [bind]; [| done].
      by rewrite snd_io_bind, snd_debug_print.
    + cbn [bind]. rewrite snd_io_bind, filter_loop_collect.
      destruct (collect _ L) as [kept | e]; cbn [bind]; [| done].
      by rewrite snd_io_bind, snd_debug_print.
Qed.

(** The value of the filtering pass, when it returns one: the included
    tools, in input order; no tool made [_should_include_tool] raise; and
    with [debug] set every line could be written. *)
Lemma filterTools_ok_inv (L : list Tool) (d : bool) (res : list Tool) :
  filterTools rt L F P d = Ok res ->
  res = List.filter (included F P) L /\ Forall no_raise L /\
  (d = true -> lines_ok rt F P L).
Proof.
  rewrite filterTools_unfold.
  destruct (returns_all F P) eqn:E.
  - pose proof E as E'. apply early_return_iff in E as [HF HP].
    intros [= <-].
    assert (H : Forall (fun t => _should_include_tool t F P = Ok true) L).
    { apply List.Forall_forall. intros t _.
      by apply should_include_no_filters. }
    split; [| split].
    + symmetry. apply filter_bool_all.
      eapply Forall_impl; [exact H |]. intros t Ht. by apply included_true.
    + eapply Forall_impl; [exact H |]. simpl. by intros t ->.
    + intros _. unfold lines_ok. by rewrite E'.
  - destruct (if d then header_error rt F else None) as [e |] eqn:Eh;
      [done |].
    intros H. apply collect_ok in H as [Hall ->].
    split; [| split].
    + apply filter_ext_in. intros t Ht. rewrite List.Forall_forall in Hall.
      by apply judged_value, Hall.
    + eapply Forall_impl; [exact Hall |]. intros t Ht.
      by apply judged_is_ok in Ht as [? _].
    + intros -> _. split; [done |].
      eapply Forall_impl; [exact Hall |]. intros t Ht.
      apply judged_is_ok in Ht as [_ Ht]. by apply Ht.
Qed.

(** The filtering pass returns a value whenever no tool makes
    [_should_include_tool] raise and, with [debug] set, every line can be
    written. *)
Lemma filterTools_total (L : list Tool) (d : bool) :
  Forall no_raise L -> (d = true -> lines_ok rt F P L) ->
  filterTools rt L F P d = Ok (List.filter (included F P) L).
Proof.
  intros Hok Hlines. rewrite filterTools_unfold.
  destruct (returns_all F P) eqn:E.
  - apply early_return_iff in E as [HF HP]. f_equal.
    symmetry. apply filter_bool_all, List.Forall_forall. intros t _.
    apply included_true. by apply should_include_no_filters.
  - assert (Hh : (if d then header_error rt F else None) = None).
    { destruct d; [| done]. by destruct (Hlines eq_refl E). }
    rewrite Hh. apply collect_ok. split.
    + apply List.Forall_forall. intros t Ht. apply judged_is_ok.
      rewrite List.Forall_forall in Hok. split; [by apply Hok |].
      intros ->. destruct (Hlines eq_refl E) as [_ Hl].
      rewrite List.Forall_forall in Hl. by apply Hl.
    + apply filter_ext_in. intros t Ht. symmetry. apply judged_value.
      apply judged_is_ok. rewrite List.Forall_forall in Hok.
      split; [by apply Hok |].
      intros ->. destruct (Hlines eq_refl E) as [_ Hl].
      rewrite List.Forall_forall in Hl. by apply Hl.
Qed.

Lemma filterTools_quiet (L : list Tool) :
  Forall no_raise L ->
  filterTools rt L F P false = Ok (List.filter (included F P) L).
Proof. intros H. by apply filterTools_total. Qed.


(** Setting [debug] changes the outcome in one way only: printing
    raises. *)
Lemma filterTools_debug (L : list Tool) :
  filterTools rt L F P true = filterTools rt L F P false \/
  exists e, filterTools rt L F P true = Raise e /\ print_error e = true.
Proof.
  rewrite !filterTools_unfold. destruct (returns_all F P); [by left |].
  destruct (header_error rt F) as [e |] eqn:Eh.
  { right. exists e. split; [done |].
    exact (line_error_print_error _ _ _ Eh). }
  induction L as [| t L IH]; simpl; [by left |].
  rewrite judged_quiet.
  destruct (judged rt F P true t) as [b | e] eqn:E.
  - apply judged_ok in E as [-> _]. simpl.
    destruct IH as [-> | (e & -> & He)]; [by left |]. right. by exists e.
  - apply judged_raise in E as [-> | [_ He]]; [by left |].
    right. by exists e.
Qed.

End Loop.

End FilterFacts.

(** ** The claims of the specification *)

Module Claims.
Import Py PyFacts FilteredMcpTools Reading Examples FilterFacts.

#[local] Abbreviation scalars l := (Forall (fun v => scalar v = true) l).

Lemma scalars_hashable (l : list Value) :
  scalars l -> Forall (fun v => hashable v = true) l.
Proof. intros H. eapply Forall_impl; [exact H |]. by intros []. Qed.

Lemma strs_hashable (ss : list string) :
  Forall (fun v => hashable v = true) (List.map VStr ss).
Proof. induction ss; simpl; by constructor. Qed.

(** Downgrading: a predicate or a custom filter that raises an
    [Exception] is "no match", respectively excludes the tool, and neither
    makes the pass raise. *)
Lemma raising_predicate_no_match (a : Value) (f : Callable Value) (e : Exn) :
  f a = Raise e -> is_exception e = true ->
  _annotation_value_matches_filter a (FCallable f) = Ok false.
Proof. intros H He. by rewrite matches_callable, H, He. Qed.

Lemma raising_custom_filter_excludes (tool : Tool) (F : option FilterSpec)
    (cf : Callable Tool) (e : Exn) :
  cf tool = Raise e -> is_exception e = true ->
  _should_include_tool tool F (Some (func cf)) = Ok false.
Proof.
  intros H He. apply should_include_custom_fails.
  by rewrite custom_filter_passes_some, H, He.
Qed.

(** Without [debug] the pass returns a value whenever every list
    annotation of every tool holds hashable elements only, so does every
    filter list, and no callable raises what is no [Exception]. *)
Lemma filterTools_returns (rt : Runtime) (L : list Tool)
    (F : option FilterSpec) (P : option CallableObject) :
  (forall t k al, In t L -> _get_annotation_value t k = VList al ->
     Forall (fun v => hashable v = true) al) ->
  (forall k fl, In (k, FData (VList fl)) (items F) ->
     Forall (fun v => hashable v = true) fl) ->
  (forall t e, In t L -> callable_raises F P t e -> is_exception e = true) ->
  exists res, filterTools rt L F P false = Ok res.
Proof.
  intros HL HF HC. eexists. apply filterTools_quiet, List.Forall_forall.
  intros t Ht. destruct (_should_include_tool t F P) as [b | e] eqn:E; [done |].
  exfalso.
  apply should_include_raise in E as [(_ & k & fl & al & Hin & Hget & Hex)
    | (He & Hc)].
  - destruct Hex as [Hex | Hex]; apply List.Exists_exists in Hex
      as (v & Hv & Hh).
    + pose proof (HL t k al Ht Hget) as Hall.
      rewrite List.Forall_forall in Hall. specialize (Hall v Hv). congruence.
    + pose proof (HF k fl Hin) as Hall.
      rewrite List.Forall_forall in Hall. specialize (Hall v Hv). congruence.
  - specialize (HC t e Ht Hc). congruence.
Qed.

(** C1 (the code departs from the claim).  The claim: no evaluation error
    ever reaches the caller of the filtering pass.  The code at a tool
    whose [toolsets] annotation is the list [[["performance"]]], under the
    filter [{"toolsets": ["performance"]}]: [set(annotation_value)] raises
    [TypeError], nothing catches it, and the whole pass raises, although
    the tools before and after it match.  A raising custom filter on the
    same tools is caught and only excludes. *)
Theorem C1_unhashable_annotation_raises (rt : Runtime) :
  _annotation_value_matches_filter
    (VList [strs ["performance"]]) (FData (strs ["performance"]))
  = Raise (TypeError "unhashable type: 'list'") /\
  filterTools rt [system_status; nested_toolsets; tool_A]
    (Some (by_toolsets ["performance"])) None false
  = Raise (TypeError "unhashable type: 'list'") /\
  filterTools rt [system_status; nested_toolsets; tool_A]
    None (Some (func always_raises)) false
  = Ok [].
Proof. repeat split; vm_compute; reflexivity. Qed.

(** C2.  For a filter value that is a list of scalars: against a list
    annotation (of scalars) the key matches exactly when some element of
    the annotation equals some element of the filter list, elements being
    compared as Python sets and [in] compare them ([==]); against a scalar
    annotation it matches exactly when the scalar is a member of the filter
    list.  For lists of strings, as toolsets are, this is plain sharing of
    a string.  A tool with toolsets ["performance", "sysadmin"] passes
    {toolsets: ["performance"]} and {toolsets: ["sysadmin", "security"]}
    and fails {toolsets: ["security"]}. *)
Theorem C2_list_filter_matches (rt : Runtime) :
  (forall al fl : list Value, scalars al -> scalars fl ->
     exists b,
       _annotation_value_matches_filter (VList al) (FData (VList fl)) = Ok b /\
       (b = true <-> exists x y, In x al /\ In y fl /\ py_eq x y = true)) /\
  (forall (a : Value) (fl : list Value), scalar a = true -> scalars fl ->
     exists b,
       _annotation_value_matches_filter a (FData (VList fl)) = Ok b /\
       (b = true <-> exists y, In y fl /\ py_eq a y = true)) /\
  (forall ss ts : list string,
     exists b,
       _annotation_value_matches_filter (strs ss) (FData (strs ts)) = Ok b /\
       (b = true <-> exists s, In s ss /\ In s ts)) /\
  (forall (s : string) (ts : list string),
     exists b,
       _annotation_value_matches_filter (VStr s) (FData (strs ts)) = Ok b /\
       (b = true <-> In s ts)) /\
  filterTools rt [system_status] (Some (by_toolsets ["performance"])) None
    false = Ok [system_status] /\
  filterTools rt [system_status] (Some (by_toolsets ["sysadmin"; "security"]))
    None false = Ok [system_status] /\
  filterTools rt [system_status] (Some (by_toolsets ["security"])) None false
    = Ok [].
Proof.
  split; [| split; [| split; [| split]]].
  - intros al fl Ha Hf. apply matches_list_list; by apply scalars_hashable.
  - intros a fl Ha _. exists (py_in a fl). split.
    + apply matches_list_single. by destruct a.
    + apply py_in_spec.
  - intros ss ts.
    destruct (matches_list_list _ _ (strs_hashable ss) (strs_hashable ts))
      as (b & Hb & Hiff).
    exists b. split; [exact Hb |]. rewrite Hiff. split.
    + intros (x & y & Hx & Hy & Hxy).
      apply in_map_iff in Hx as (s & <- & Hs).
      apply py_eq_str in Hxy as ->.
      apply in_map_iff in Hy as (s' & [= ->] & Hs'). eauto.
    + intros (s & Hs & Hs'). exists (VStr s), (VStr s).
      repeat split; try (apply in_map_iff; eauto). apply py_eq_refl.
  - intros s ts. exists (py_in (VStr s) (List.map VStr ts)).
    split; [reflexivity |]. rewrite py_in_spec. split.
    + intros (y & Hy & Hsy). apply py_eq_str in Hsy as ->.
      by apply in_map_iff in Hy as (s' & [= ->] & Hs').
    + intros Hs. exists (VStr s). split; [| apply py_eq_refl].
      apply in_map_iff. eauto.
  - repeat split; vm_compute; reflexivity.
Qed.

Lemma C2_list_filter_matches_witness :
  exists b,
    _annotation_value_matches_filter
      (VList [VStr "performance"; VStr "sysadmin"])
      (FData (VList [VStr "sysadmin"; VStr "security"])) = Ok b /\
    (b = true <->
     exists x y, In x [VStr "performance"; VStr "sysadmin"] /\
       In y [VStr "sysadmin"; VStr "security"] /\ py_eq x y = true).
Proof.
  apply (proj1 (C2_list_filter_matches cpython)); repeat constructor.
Defined.

(** C3, the claim as stated fails: the integer 1 is a value of another
    type than the boolean [True], yet [1 == True] holds in Python, so a
    tool with [readOnlyHint = 1] matches the filter
    [{"readOnlyHint": True}] and is returned. *)
Lemma C3_int_one_matches_true :
  VInt 1 <> VBool true /\
  _annotation_value_matches_filter (VInt 1) (FData (VBool true)) = Ok true /\
  filterTools cpython [int_hint] (Some (read_only true)) None false
    = Ok [int_hint].
Proof. split; [discriminate |]. split; vm_compute; reflexivity. Qed.

(** C3 (amended).  For a scalar filter value (str/bool/int) and any
    annotation value the key matches exactly when the annotation value
    equals the filter scalar under Python's [==]: it is the same value of
    the same type, or the two are a boolean and an integer (or two of
    them) standing for the same number ([True == 1], [False == 0]).  A
    tool with [readOnlyHint = True] passes {readOnlyHint: true} and fails
    {readOnlyHint: false}. *)
Theorem C3_scalar_filter_matches (rt : Runtime) :
  (forall a f : Value, scalar f = true ->
     _annotation_value_matches_filter a (FData f) = Ok (py_eq a f) /\
     (py_eq a f = true <->
      a = f \/ exists n, as_int a = Some n /\ as_int f = Some n)) /\
  filterTools rt [system_status] (Some (read_only true)) None false
    = Ok [system_status] /\
  filterTools rt [system_status] (Some (read_only false)) None false = Ok [].
Proof.
  split.
  - intros a f Hf. split; [| by apply py_eq_scalar].
    apply matches_primitive. by destruct f.
  - split; vm_compute; reflexivity.
Qed.

Lemma C3_scalar_filter_matches_witness :
  _annotation_value_matches_filter (VStr "performance") (FData (VBool true))
    = Ok (py_eq (VStr "performance") (VBool true)) /\
  (py_eq (VStr "performance") (VBool true) = true <->
   VStr "performance" = VBool true \/
   exists n, as_int (VStr "performance") = Some n /\
             as_int (VBool true) = Some n).
Proof.
  apply (proj1 (C3_scalar_filter_matches cpython)). reflexivity.
Defined.

(** C4.  A tool is included only if the custom predicate, when present
    (and truthy as an object, or it is not called), returns a true value
    and every key of the filter spec matches.  The custom predicate comes
    first: when it returns a false value or raises an [Exception], the
    outcome is exclusion whatever the filter spec holds (what it raises
    that is no [Exception], such as [SystemExit], is let through).  The keys are tried in order and the first one that
    fails decides: once the custom predicate has been passed, the outcome
    is exclusion whatever keys follow the failing one, also keys whose
    evaluation would raise.  The tool with toolsets ["performance"] and
    [readOnlyHint = False] passes {toolsets: ["performance"]} and fails
    {toolsets: ["performance"], readOnlyHint: true}; the tool with the
    nested toolsets list is excluded by the failing key readOnlyHint put
    before the key toolsets, whose evaluation raises when it comes first. *)
Theorem C4_and_logic_short_circuit :
  (forall (tool : Tool) (F : option FilterSpec) (P : option CallableObject),
     _should_include_tool tool F P = Ok true ->
     match P with
     | Some cf =>
         truth_value cf = true ->
         exists r, call cf tool = Ok r /\ truthy r = true
     | None => True
     end /\
     forall k fv, In (k, fv) (items F) -> key_matches tool k fv = Ok true) /\
  (forall (tool : Tool) (F : option FilterSpec) (cf : Callable Tool),
     (forall r, cf tool = Ok r -> truthy r = false) ->
     _should_include_tool tool F (Some (func cf)) =
     match cf tool with
     | Raise e => if is_exception e then Ok false else Raise e
     | Ok _ => Ok false
     end) /\
  (forall (tool : Tool) (pre rest : FilterSpec) (k : string)
          (fv : FilterValue) (P : option CallableObject),
     Forall (fun kv => key_matches tool kv.1 kv.2 = Ok true) pre ->
     key_matches tool k fv = Ok false ->
     _should_include_tool tool (Some (pre ++ (k, fv) :: rest)) P =
     (passed <- custom_filter_passes tool P ;; Ok false)) /\
  _should_include_tool tune_pool (Some (by_toolsets ["performance"])) None
    = Ok true /\
  _should_include_tool tune_pool
    (Some (by_toolsets ["performance"] ++ read_only true)) None = Ok false /\
  _should_include_tool nested_toolsets
    (Some (read_only true ++ by_toolsets ["performance"])) None = Ok false /\
  _should_include_tool nested_toolsets
    (Some (by_toolsets ["performance"] ++ read_only true)) None
    = Raise (TypeError "unhashable type: 'list'") /\
  _should_include_tool tune_pool (Some (by_toolsets ["performance"]))
    (Some (func always_raises)) = Ok false /\
  _should_include_tool tune_pool (Some (by_toolsets ["performance"]))
    (Some (func exits)) = Raise (BaseException "SystemExit").
Proof.
  split; [| split; [| split]].
  - intros tool F P H. apply should_include_true in H as [Hc Hk]. split.
    + destruct P as [cf |]; [| done]. intros Ht.
      destruct (proj1 (custom_filter_passes_spec _ _) Hc Ht)
        as (o & r & [= <-] & Hr & Htr). eauto.
    + intros k fv Hin. rewrite List.Forall_forall in Hk.
      exact (Hk (k, fv) Hin).
  - intros tool F cf Hcf. unfold _should_include_tool.
    rewrite custom_filter_passes_some.
    destruct (cf tool) as [r | e]; simpl.
    + by rewrite (Hcf r eq_refl).
    + by destruct (is_exception e).
  - intros tool pre rest k fv P Hpre Hk. unfold _should_include_tool.
    destruct (custom_filter_passes tool P) as [[|] | e]; [| done | done].
    assert (Ht : filters_truthy (Some (pre ++ (k, fv) :: rest)) = true)
      by (clear; destruct pre; reflexivity).
    cbn [bind negb]. rewrite Ht.
    cbn [items]. by rewrite (match_items_stop _ _ _ _ _ Hpre), Hk.
  - repeat split; vm_compute; reflexivity.
Qed.

Lemma C4_and_logic_short_circuit_witness :
  _should_include_tool tune_pool
    (Some (by_toolsets ["performance"]
           ++ ("readOnlyHint", FData (VBool true))
           :: by_toolsets ["security"]))
    (Some (func not_tune_pool)) = Ok false.
Proof.
  apply (proj1 (proj2 (proj2 C4_and_logic_short_circuit))
           tune_pool (by_toolsets ["performance"])
           (by_toolsets ["security"]) "readOnlyHint" (FData (VBool true))
           (Some (func not_tune_pool))).
  - repeat constructor.
  - vm_compute. reflexivity.
Defined.

(** C5, the claim as stated fails: a filter value that is a predicate is
    applied to the "no value" marker [None] and decides by itself, so a
    tool without the toolsets annotation passes the filter
    [{"toolsets": lambda v: v is None}]. *)
Lemma C5_predicate_accepts_missing :
  lacks_annotation describe_object "toolsets" /\
  _get_annotation_value describe_object "toolsets" = VNone /\
  filterTools cpython [describe_object]
    (Some [("toolsets", FCallable is_none)]) None false
    = Ok [describe_object].
Proof. repeat split; vm_compute; reflexivity. Qed.

(** C5 (amended).  For a tool lacking an annotation key the lookup yields
    the "no value" marker [None], never an error, and the tool fails every
    filter on that key whose filter value is a scalar (str/bool/int) or a
    list of scalars: the key does not match, the tool is not included by
    any filter spec with such an entry, and no result of the pass holds
    it.  (A predicate filter value is applied to [None] and decides.) *)
Theorem C5_missing_annotation_fails (tool : Tool) (key : string)
    (fv : FilterValue) (F : FilterSpec) (P : option CallableObject) :
  lacks_annotation tool key -> scalar_or_scalars fv -> In (key, fv) F ->
  _get_annotation_value tool key = VNone /\
  key_matches tool key fv = Ok false /\
  _should_include_tool tool (Some F) P <> Ok true /\
  forall (rt : Runtime) (L : list Tool) (d : bool) (res : list Tool),
    filterTools rt L (Some F) P d = Ok res -> ~ In tool res.
Proof.
  intros Hlack Hfv Hin.
  pose proof (get_annotation_value_lacking _ _ Hlack) as Hget.
  assert (Hkey : key_matches tool key fv = Ok false).
  { unfold key_matches. rewrite Hget.
    destruct fv as [f | v]; [done |]. destruct v as [| b | n | s | l];
      simpl in Hfv; try done.
    rewrite matches_list_single by done. by rewrite py_in_none_scalars. }
  assert (Hinc : _should_include_tool tool (Some F) P <> Ok true).
  { intros H. apply should_include_true in H as [_ H]. simpl in H.
    rewrite List.Forall_forall in H. specialize (H _ Hin). simpl in H.
    congruence. }
  repeat split; try done.
  intros rt L d res Hres Ht. apply filterTools_ok_inv in Hres as [-> _].
  apply filter_In in Ht as [_ Ht]. by apply included_true in Ht.
Qed.

Lemma C5_missing_annotation_fails_witness :
  _get_annotation_value describe_object "toolsets" = VNone /\
  key_matches describe_object "toolsets" (FData (strs ["performance"]))
    = Ok false /\
  _should_include_tool describe_object
    (Some (read_only true ++ by_toolsets ["performance"])) None <> Ok true /\
  forall (rt : Runtime) (L : list Tool) (d : bool) (res : list Tool),
    filterTools rt L (Some (read_only true ++ by_toolsets ["performance"]))
      None d = Ok res -> ~ In describe_object res.
Proof.
  apply (C5_missing_annotation_fails describe_object "toolsets"
           (FData (strs ["performance"]))).
  - vm_compute. reflexivity.
  - repeat constructor.
  - right. left. reflexivity.
Defined.

(** C6.  With no filter spec or an empty one, and no custom predicate,
    the pass returns the tool list unchanged. *)
Theorem C6_no_filters_identity (rt : Runtime) (L : list Tool) (d : bool) :
  filterTools rt L None None d = Ok L /\
  filterTools rt L (Some []) None d = Ok L.
Proof. split; by rewrite filterTools_unfold. Qed.

(** C7.  A result of the pass is an ordered subset of the input: it is a
    subsequence of the input (same relative order), no longer than the
    input, made of tools of the input, none occurring more often than in
    the input. *)
Theorem C7_ordered_subset (rt : Runtime) (L : list Tool)
    (F : option FilterSpec) (P : option CallableObject) (d : bool)
    (res : list Tool) :
  filterTools rt L F P d = Ok res ->
  sublist res L /\
  (length res <= length L)%nat /\
  (forall t, In t res -> In t L) /\
  (forall (dec : forall x y : Tool, {x = y} + {x <> y}) (t : Tool),
     (count_occ dec res t <= count_occ dec L t)%nat).
Proof.
  intros H. apply filterTools_ok_inv in H as [-> _].
  pose proof (filter_bool_sublist (included F P) L) as Hsub.
  repeat split.
  - exact Hsub.
  - by apply sublist_length.
  - intros t Ht. by apply filter_In in Ht as [? _].
  - intros dec t. by apply sublist_count_occ.
Qed.

Lemma C7_ordered_subset_witness :
  sublist [tool_A; tool_C] [tool_A; tool_B; tool_C; tool_D; tool_E] /\
  (length [tool_A; tool_C]
   <= length [tool_A; tool_B; tool_C; tool_D; tool_E])%nat /\
  (forall t, In t [tool_A; tool_C] ->
     In t [tool_A; tool_B; tool_C; tool_D; tool_E]) /\
  (forall (dec : forall x y : Tool, {x = y} + {x <> y}) (t : Tool),
     (count_occ dec [tool_A; tool_C] t
      <= count_occ dec [tool_A; tool_B; tool_C; tool_D; tool_E] t)%nat).
Proof.
  apply (C7_ordered_subset cpython _ (Some (by_toolsets ["performance"]))
           None true).
  vm_compute. reflexivity.
Defined.

(** C8.  Filtering is idempotent: when the pass over [L] with a filter
    spec and a custom predicate returns [R], the pass over [R] with the
    same filter spec and custom predicate returns [R], with the same
    [debug] flag and without [debug]. *)
Theorem C8_idempotent (rt : Runtime) (L R : list Tool)
    (F : option FilterSpec) (P : option CallableObject) (d : bool) :
  filterTools rt L F P d = Ok R ->
  filterTools rt R F P d = Ok R /\ filterTools rt R F P false = Ok R.
Proof.
  intros H. apply filterTools_ok_inv in H as (-> & Hok & Hlines).
  assert (Hok' : Forall (fun t => is_ok (_should_include_tool t F P) = true)
                   (List.filter (included F P) L)).
  { apply List.Forall_forall. intros t Ht. apply filter_In in Ht as [Ht _].
    rewrite List.Forall_forall in Hok. by apply Hok. }
  assert (Hid : List.filter (included F P) (List.filter (included F P) L)
                = List.filter (included F P) L)
    by apply filter_bool_all, filter_bool_kept.
  split.
  - rewrite filterTools_total; [by rewrite Hid | done |].
    intros Hd Hall. destruct (Hlines Hd Hall) as [Hh Hl]. split; [done |].
    apply List.Forall_forall. intros t Ht. apply filter_In in Ht as [Ht _].
    rewrite List.Forall_forall in Hl. by apply Hl.
  - rewrite filterTools_quiet; [by rewrite Hid | done].
Qed.

Lemma C8_idempotent_witness :
  filterTools cpython [tool_A; tool_C] (Some (by_toolsets ["performance"]))
    (Some (func not_tune_pool)) true = Ok [tool_A; tool_C] /\
  filterTools cpython [tool_A; tool_C] (Some (by_toolsets ["performance"]))
    (Some (func not_tune_pool)) false = Ok [tool_A; tool_C].
Proof.
  apply (C8_idempotent cpython [tool_A; tool_B; tool_C; tool_D; tool_E]).
  vm_compute. reflexivity.
Defined.

(** C9 (the code departs from the claim).  The claim: the debug flag
    never affects the result.  The code formats and prints its trace
    lines outside any [try]: with [debug = True] the line of the filters
    applied raises [ValueError] when a filter value is an integer over
    the limit on digits (10 ** 5000 against the default 4300), the line
    of an excluded tool raises it when an annotation value of the tool
    is such an integer, and the line of any tool raises
    [UnicodeEncodeError] on a [stdout] that cannot encode the check and
    cross marks; in all three cases the same call with [debug = False]
    returns a list.  What remains of the claim: setting [debug] changes
    the outcome only by such an exception of printing, so a call with
    [debug = True] that returns, returns the list the call without
    [debug] returns; without [debug] nothing is written; with [debug],
    when the pass returns, the output is the count of loaded tools, then
    either the notice that no filters were given, or the filters applied,
    one line per tool in input order (its name when included; its name
    and the annotation values of the filter keys when excluded) and the
    count of the tools kept. *)
Theorem C9_debug_print_raises :
  filterTools cpython [system_status]
    (Some [("readOnlyHint", FData (VInt (10 ^ 5000)))]) None false = Ok [] /\
  filterTools cpython [system_status]
    (Some [("readOnlyHint", FData (VInt (10 ^ 5000)))]) None true
    = Raise digits_exceeded /\
  filterTools cpython [huge_hint] (Some (read_only true)) None false
    = Ok [] /\
  filterTools cpython [huge_hint] (Some (read_only true)) None true
    = Raise digits_exceeded /\
  filterTools legacy_stdout [system_status] (Some (read_only true)) None
    false = Ok [system_status] /\
  filterTools legacy_stdout [system_status] (Some (read_only true)) None
    true = Raise marks_not_encodable /\
  forall (rt : Runtime) (session : Session) (F : option FilterSpec)
         (P : option CallableObject),
    (snd (load_filtered_mcp_tools rt session F P true)
       = snd (load_filtered_mcp_tools rt session F P false) \/
     exists e,
       snd (load_filtered_mcp_tools rt session F P true) = Raise e /\
       print_error e = true) /\
    fst (load_filtered_mcp_tools rt session F P false) = [] /\
    match snd (load_filtered_mcp_tools rt session F P true) with
    | Ok res =>
        snd (load_filtered_mcp_tools rt session F P false) = Ok res /\
        fst (load_filtered_mcp_tools rt session F P true) =
        LoadedTotal (length (listed_tools session)) ::
        (if negb (filters_truthy F) && negb (custom_truthy P)
         then [NoFiltersSpecified]
         else ApplyingFilters (if filters_truthy F then F else None) ::
              List.map (rationale F P) (listed_tools session)
              ++ [FilteredTo (length res)])
    | Raise _ => True
    end.
Proof.
  do 6 (split; [vm_compute; reflexivity |]).
  intros rt [L] F P.
  pose proof (filterTools_debug rt F P L) as Hd. unfold filterTools in Hd.
  split; [exact Hd |]. split.
  - unfold load_filtered_mcp_tools, load_mcp_tools. cbn [listed_tools].
    rewrite fst_io_bind. cbn [debug_print io_ret fst snd app].
    destruct (negb (filters_truthy F) && negb (custom_truthy P)).
    + rewrite fst_io_bind. done.
    + rewrite fst_io_bind. cbn [io_ret fst snd app].
      rewrite fst_io_bind, filter_loop_quiet. cbn [app].
      destruct (snd (filter_loop rt F P false L [])); [| done].
      rewrite fst_io_bind. done.
  - destruct (snd (load_filtered_mcp_tools rt {| listed_tools := L |} F P true))
      as [res | e] eqn:E; [| done].
    split.
    { destruct Hd as [Hd | (e & Hd & _)]; [by rewrite <- Hd | congruence]. }
    revert E. unfold load_filtered_mcp_tools, load_mcp_tools.
    cbn [listed_tools].
    rewrite snd_io_bind, fst_io_bind.
    cbn [debug_print print line_error fst snd bind app].
    destruct (negb (filters_truthy F) && negb (custom_truthy P)).
    + rewrite snd_io_bind, fst_io_bind. done.
    + rewrite snd_io_bind, fst_io_bind, snd_print, fst_print.
      destruct (line_error rt (ApplyingFilters _)); cbn [bind]; [done |].
      rewrite snd_io_bind, fst_io_bind.
      destruct (snd (filter_loop rt F P true L [])) as [kept | e] eqn:EL;
        cbn [bind]; [| done].
      rewrite (filter_loop_lines _ _ _ _ _ _ EL).
      rewrite snd_io_bind, fst_io_bind. cbn. by intros [= ->].
Qed.

(** C10.  A scalar filter value (neither a list nor a callable) against
    a list annotation is compared with [==], and a list never equals a
    value that is no list: the key never matches.  The filter
    {toolsets: "performance"} excludes the tool whose toolsets are
    ["performance", "sysadmin"]. *)
Theorem C10_scalar_filter_list_annotation (rt : Runtime) :
  (forall (al : list Value) (v : Value), is_list v = false ->
     _annotation_value_matches_filter (VList al) (FData v) = Ok false) /\
  filterTools rt [system_status]
    (Some [("toolsets", FData (VStr "performance"))]) None false = Ok [].
Proof.
  split.
  - intros al v Hv. rewrite matches_primitive by done.
    by rewrite py_eq_list_nonlist.
  - vm_compute. reflexivity.
Qed.

Lemma C10_scalar_filter_list_annotation_witness :
  _annotation_value_matches_filter
    (VList [VStr "performance"; VStr "sysadmin"])
    (FData (VStr "performance")) = Ok false.
Proof.
  apply (proj1 (C10_scalar_filter_list_annotation cpython)). reflexivity.
Defined.

End Claims.

(** ** Further properties of the filtering pass *)

Module PassFacts.
Import Py PyFacts FilteredMcpTools Reading Examples FilterFacts.

(** [_should_include_tool] with a filter spec: the truth test on the
    dictionary can be dropped, the loop over no items returns [True]. *)
Lemma should_include_items (tool : Tool) (F : FilterSpec)
    (P : option CallableObject) :
  _should_include_tool tool (Some F) P =
  (passed <- custom_filter_passes tool P ;;
   if negb passed then Ok false else match_items tool F).
Proof.
  unfold _should_include_tool.
  destruct (custom_filter_passes tool P) as [[|] | e]; simpl; try done.
  by destruct F.
Qed.

Lemma match_items_app (tool : Tool) (F1 F2 : FilterSpec) :
  match_items tool (F1 ++ F2) =
  match match_items tool F1 with
  | Ok true => match_items tool F2
  | r => r
  end.
Proof.
  induction F1 as [| [k fv] F1 IH]; simpl; [done |].
  destruct (_annotation_value_matches_filter _ fv) as [[|] | e]; simpl; done.
Qed.

(** The keys of [F1 ++ F2] decide like the keys of [F1] followed, for a
    tool that passes them, by the keys of [F2]. *)
Lemma should_include_app (tool : Tool) (F1 F2 : FilterSpec)
    (P : option CallableObject) :
  _should_include_tool tool (Some (F1 ++ F2)) P =
  match _should_include_tool tool (Some F1) P with
  | Ok true => _should_include_tool tool (Some F2) None
  | r => r
  end.
Proof.
  rewrite !should_include_items, match_items_app. simpl.
  destruct (custom_filter_passes tool P) as [[|] | e]; simpl; try done;
    by destruct (match_items tool F1) as [[|] | e'].
Qed.

Lemma filter_bool_ext_in {A : Type} (f g : A -> bool) (l : list A) :
  (forall x, In x l -> f x = g x) -> List.filter f l = List.filter g l.
Proof.
  induction l as [| x l IH]; simpl; intros H; [done |].
  rewrite (H x) by (by left). rewrite IH by (intros y Hy; apply H; by right).
  done.
Qed.

Lemma filter_bool_twice {A : Type} (f g : A -> bool) (l : list A) :
  List.filter g (List.filter f l) = List.filter (fun x => f x && g x) l.
Proof.
  induction l as [| x l IH]; simpl; [done |].
  destruct (f x); simpl; [| done]. destruct (g x); by rewrite IH.
Qed.

Lemma no_raise_app (F : option FilterSpec) (P : option CallableObject)
    (L1 L2 : list Tool) :
  Forall (fun t => is_ok (_should_include_tool t F P) = true) (L1 ++ L2) <->
  Forall (fun t => is_ok (_should_include_tool t F P) = true) L1 /\
  Forall (fun t => is_ok (_should_include_tool t F P) = true) L2.
Proof. apply Forall_app. Qed.


Lemma bool_eq_iff (b1 b2 : bool) : (b1 = true <-> b2 = true) -> b1 = b2.
Proof. destruct b1, b2; intros [H1 H2]; try done; [by rewrite H1 | by rewrite H2]. Qed.

Lemma returned_load (rt : Runtime) (s : Session) (F : option FilterSpec)
    (P : option CallableObject) (d : bool) :
  Tagged.returned (load_filtered_mcp_tools rt s F P d)
  = filterTools rt (listed_tools s) F P d.
Proof. by destruct s. Qed.

(** A spec with the single key [k] decides as that key matches. *)
Lemma should_include_single (tool : Tool) (k : string) (fv : FilterValue) :
  _should_include_tool tool (Some [(k, fv)]) None = key_matches tool k fv.
Proof.
  unfold _should_include_tool, key_matches. simpl.
  by destruct (_annotation_value_matches_filter _ fv) as [[|] | e].
Qed.

Lemma custom_filter_passes_truthy (tool : Tool) (cf : Callable Tool) :
  raises_only_exceptions cf tool ->
  custom_filter_passes tool (Some (func cf))
  = Ok (Tagged.returns_truthy cf tool).
Proof.
  unfold Tagged.returns_truthy, raises_only_exceptions.
  rewrite custom_filter_passes_some. intros H.
  destruct (cf tool) as [r | e]; [done |]. by rewrite (H e eq_refl).
Qed.

Lemma py_eq_bool (a : Value) (b : bool) :
  py_eq a (VBool b) = true <-> a = VBool b \/ a = VInt (Z.b2z b).
Proof.
  destruct a as [| x | x | x | xs]; simpl;
    try (split; [discriminate | intros [H | H]; discriminate]).
  - rewrite Bool.eqb_true_iff. split; [intros ->; by left |].
    intros [[= ->] | [=]]. done.
  - rewrite Z.eqb_eq. split; [intros ->; by right |].
    intros [[=] | [= ->]]. done.
Qed.

Lemma strs_all_hashable (ns : list string) :
  Forall (fun v => hashable v = true) (List.map VStr ns).
Proof. induction ns; simpl; by constructor. Qed.

(** The key [toolsets] against a list of toolset names: when the match
    returns, it says whether the tool carries one of the names, and it
    returns for every other list of names as well. *)
Lemma toolsets_key_matches (tool : Tool) (ns : list string) (b : bool) :
  key_matches tool "toolsets" (FData (VList (List.map VStr ns))) = Ok b ->
  (b = true <-> exists n, In n ns /\ Tagged.in_toolset n tool).
Proof.
  unfold key_matches, Tagged.in_toolset.
  destruct (_get_annotation_value tool "toolsets") as [| x | x | x | al] eqn:E.
  - rewrite matches_list_single by done. intros [= <-]. rewrite py_in_spec.
    split; [| by intros (? & ? & [])].
    intros (y & Hy & Hxy). apply in_map_iff in Hy as (n & <- & _). done.
  - rewrite matches_list_single by done. intros [= <-]. rewrite py_in_spec.
    split; [| by intros (? & ? & [])].
    intros (y & Hy & Hxy). apply in_map_iff in Hy as (n & <- & _). done.
  - rewrite matches_list_single by done. intros [= <-]. rewrite py_in_spec.
    split; [| by intros (? & ? & [])].
    intros (y & Hy & Hxy). apply in_map_iff in Hy as (n & <- & _). done.
  - rewrite matches_list_single by done. intros [= <-]. rewrite py_in_spec.
    split.
    + intros (y & Hy & Hxy). apply in_map_iff in Hy as (n & <- & Hn).
      apply py_eq_str in Hxy as [= ->]. eauto.
    + intros (n & Hn & ->). exists (VStr n).
      split; [apply in_map_iff; eauto | apply py_eq_refl].
  - intros H.
    destruct (hashable_all_dec al) as [Ha | Ha].
    + destruct (matches_list_list al _ Ha (strs_all_hashable ns))
        as (b' & Hb' & Hiff).
      rewrite Hb' in H. injection H as ->. rewrite Hiff. split.
      * intros (x & y & Hx & Hy & Hxy).
        apply in_map_iff in Hy as (n & <- & Hn).
        rewrite py_eq_sym in Hxy. apply py_eq_str in Hxy as ->. eauto.
      * intros (n & Hn & Hin). exists (VStr n), (VStr n).
        repeat split; [done | apply in_map_iff; eauto | apply py_eq_refl].
    + simpl in H. unfold py_set in H.
      by rewrite (set_update_raise al [] Ha) in H.
Qed.


Lemma hints_match (t : Tool) (hs : list (string * bool)) :
  match_items t (List.map (fun kb => (fst kb, FData (VBool (snd kb)))) hs)
  = Ok (forallb (fun kb =>
          py_eq (_get_annotation_value t (fst kb)) (VBool (snd kb))) hs).
Proof.
  induction hs as [| [k b] hs IH]; simpl; [done |].
  destruct (py_eq (_get_annotation_value t k) (VBool b)); simpl;
    [apply IH | done].
Qed.

(** A spec of boolean hints never makes [_should_include_tool] raise:
    without [debug] the pass returns the tools whose annotation equals
    ([==]) the boolean for every key; with [debug] it returns the same
    list when it returns. *)
Lemma hints_pass (rt : Runtime) (L : list Tool) (hs : list (string * bool)) :
  filterTools rt L
    (Some (List.map (fun kb => (fst kb, FData (VBool (snd kb)))) hs)) None
    false
  = Ok (List.filter
          (fun t => forallb (fun kb =>
             py_eq (_get_annotation_value t (fst kb)) (VBool (snd kb))) hs)
          L).
Proof.
  rewrite filterTools_quiet.
  - f_equal. apply filter_bool_ext_in. intros t _. unfold included.
    by rewrite should_include_items, hints_match.
  - apply List.Forall_forall. intros t _.
    by rewrite should_include_items, hints_match.
Qed.

Lemma hints_pass_debug (rt : Runtime) (L : list Tool)
    (hs : list (string * bool)) (d : bool) (res : list Tool) :
  filterTools rt L
    (Some (List.map (fun kb => (fst kb, FData (VBool (snd kb)))) hs)) None d
  = Ok res ->
  res = List.filter
          (fun t => forallb (fun kb =>
             py_eq (_get_annotation_value t (fst kb)) (VBool (snd kb))) hs)
          L.
Proof.
  intros H. apply filterTools_ok_inv in H as (-> & _).
  apply filter_bool_ext_in. intros t _. unfold included.
  by rewrite should_include_items, hints_match.
Qed.

(** With [debug] and a spec of boolean hints the pass returns as well
    when the marks can be encoded and the annotation values shown can be
    written. *)
Lemma hints_pass_loud (rt : Runtime) (L : list Tool)
    (hs : list (string * bool)) :
  stdout_encodes_marks rt = true ->
  (forall t kb, In t L -> In kb hs ->
     str_ok rt (_get_annotation_value t (fst kb)) = true) ->
  filterTools rt L
    (Some (List.map (fun kb => (fst kb, FData (VBool (snd kb)))) hs)) None
    true
  = Ok (List.filter
          (fun t => forallb (fun kb =>
             py_eq (_get_annotation_value t (fst kb)) (VBool (snd kb))) hs)
          L).
Proof.
  intros Hm Hs. rewrite filterTools_total.
  - f_equal. apply filter_bool_ext_in. intros t _. unfold included.
    by rewrite should_include_items, hints_match.
  - apply List.Forall_forall. intros t _.
    by rewrite should_include_items, hints_match.
  - intros _ _. split.
    + unfold header_error. destruct hs as [| kb hs]; [done |].
      cbn [filters_truthy List.map line_error].
      assert (H : filters_str_ok rt
        (List.map (fun kb => (fst kb, FData (VBool (snd kb)))) (kb :: hs))
        = true).
      { unfold filters_str_ok. apply forallb_forall. intros x Hx.
        apply in_map_iff in Hx as (y & <- & _). done. }
      cbn [List.map] in H. by rewrite H.
    + apply List.Forall_forall. intros t Ht. unfold tool_line_error.
      destruct (included _ None t); [by apply line_error_of_included |].
      apply line_error_of_excluded. split; [done |].
      unfold annotations_info. destruct (filters_truthy _); [| done].
      cbn [items]. rewrite format_annotations_is_ok.
      apply forallb_forall. intros x Hx.
      apply in_map_iff in Hx as (kb & <- & Hkb). by apply Hs.
Qed.

(** The lines of a list of tools can be written when those of its two
    parts can. *)
Lemma lines_ok_app (rt : Runtime) (F : option FilterSpec)
    (P : option CallableObject) (L1 L2 : list Tool) :
  lines_ok rt F P (L1 ++ L2) <-> lines_ok rt F P L1 /\ lines_ok rt F P L2.
Proof.
  unfold lines_ok. split.
  - intros H. split; intros Hr; destruct (H Hr) as [Hh Hf];
      apply Forall_app in Hf as [? ?]; done.
  - intros [H1 H2] Hr. destruct (H1 Hr) as [Hh Hf1].
    destruct (H2 Hr) as [_ Hf2]. split; [done |]. by apply Forall_app.
Qed.

(** The line of a tool can be written under another spec and custom
    filter when it can under this one, provided a tool excluded there is
    excluded here and what is formatted for it there can be formatted
    here. *)
Lemma tool_line_ok_transfer (rt : Runtime) (F F' : option FilterSpec)
    (P P' : option CallableObject) (t : Tool) :
  tool_line_error rt F P t = None ->
  (included F' P' t = false ->
   included F P t = false /\
   (is_ok (annotations_info rt t F) = true ->
    is_ok (annotations_info rt t F') = true)) ->
  tool_line_error rt F' P' t = None.
Proof.
  unfold tool_line_error. intros H Hex.
  pose proof (line_error_of_marks _ _ _ _ H) as Hm.
  destruct (included F' P' t); [by apply line_error_of_included |].
  destruct (Hex eq_refl) as [Hi Ha]. rewrite Hi in H.
  apply line_error_of_excluded in H as [_ H].
  apply line_error_of_excluded. split; [done | by apply Ha].
Qed.

Lemma filters_str_ok_app (rt : Runtime) (F1 F2 : FilterSpec) :
  filters_str_ok rt (F1 ++ F2) = filters_str_ok rt F1 && filters_str_ok rt F2.
Proof. unfold filters_str_ok. apply forallb_app. Qed.

Lemma header_error_some (rt : Runtime) (F : FilterSpec) :
  header_error rt (Some F) = None <-> filters_str_ok rt F = true.
Proof.
  unfold header_error. destruct F as [| kv F]; [done |].
  cbn [filters_truthy line_error].
  by destruct (filters_str_ok rt (kv :: F)).
Qed.

Lemma annotations_info_some (rt : Runtime) (t : Tool) (F : FilterSpec) :
  is_ok (annotations_info rt t (Some F)) = is_ok (format_annotations rt t F).
Proof. unfold annotations_info. by destruct F. Qed.

Lemma toolsets_list_requested (ts : string + list string) :
  toolsets_list ts = List.map VStr (Tagged.requested ts).
Proof. by destruct ts. Qed.

(** What a returning call of [load_toolset_tools] says about the tools of
    the session: the key matched or not for each of them, without raising,
    and the result holds those for which it matched. *)
Lemma toolset_tools_inv (rt : Runtime) (s : Session)
    (ts : string + list string) (d : bool) (res : list Tool) :
  Tagged.returned (load_toolset_tools rt s ts d) = Ok res ->
  exists keep : Tool -> bool,
    res = List.filter keep (listed_tools s) /\
    forall t, In t (listed_tools s) ->
      key_matches t "toolsets"
        (FData (VList (List.map VStr (Tagged.requested ts)))) = Ok (keep t).
Proof.
  unfold load_toolset_tools. rewrite returned_load, toolsets_list_requested.
  intros H. apply filterTools_ok_inv in H as (-> & Hok & _). eexists.
  split; [reflexivity |]. intros t Ht.
  rewrite List.Forall_forall in Hok. specialize (Hok t Ht). simpl in Hok.
  unfold included. rewrite should_include_single in *.
  by destruct (key_matches t "toolsets" _).
Qed.

End PassFacts.

(** ** Facts about the agents module *)

Module AgentFacts.
Import Py FilteredMcpTools LangchainAgents AgentReading.

Lemma print_out_spec (o : Output) (w : World) :
  exists w', print_out o w = (Val tt, w') /\
    globals w' = globals w /\ environ w' = environ w /\
    keyboard w' = keyboard w /\ stdout w' = stdout w ++ [o].
Proof. eexists. split; [reflexivity |]. done. Qed.

(** [ensure_api_keys] by cases: nothing to do, or a notice, a prompt and,
    when a line is typed, the assignment of that line. *)
Lemma ensure_api_keys_cases (model_id : string) (w : World) :
  (ensure_api_keys model_id w = (Val tt, w)) \/
  exists var notice prompt,
    (var = "OPENAI_API_KEY" \/ var = "ANTHROPIC_API_KEY") /\
    env_falsy w var = true /\
    ((keyboard w = [] /\
      fst (ensure_api_keys model_id w) = Err EOFError /\
      environ (snd (ensure_api_keys model_id w)) = environ w /\
      keyboard (snd (ensure_api_keys model_id w)) = [] /\
      stdout (snd (ensure_api_keys model_id w))
        = stdout w ++ [Text notice; Prompt prompt] /\
      globals (snd (ensure_api_keys model_id w)) = globals w) \/
     (exists line rest, keyboard w = line :: rest /\
      fst (ensure_api_keys model_id w) = Val tt /\
      environ (snd (ensure_api_keys model_id w))
        = <[var := line]> (environ w) /\
      keyboard (snd (ensure_api_keys model_id w)) = rest /\
      stdout (snd (ensure_api_keys model_id w))
        = stdout w ++ [Text notice; Prompt prompt] /\
      globals (snd (ensure_api_keys model_id w)) = globals w)).
Proof.
  unfold ensure_api_keys.
  destruct (startswith model_id "openai:" && env_falsy w "OPENAI_API_KEY")
    eqn:E1.
  - right. apply andb_true_iff in E1 as [_ E1].
    exists "OPENAI_API_KEY". do 2 eexists. split; [by left |].
    split; [done |]. unfold bindM, getpass, bindM. simpl.
    destruct (keyboard w) as [| line rest] eqn:K; simpl.
    + left. rewrite <- app_assoc. done.
    + right. exists line, rest. rewrite <- app_assoc. done.
  - destruct (startswith model_id "anthropic:"
              && env_falsy w "ANTHROPIC_API_KEY") eqn:E2; [| by left].
    right. apply andb_true_iff in E2 as [_ E2].
    exists "ANTHROPIC_API_KEY". do 2 eexists. split; [by right |].
    split; [done |]. unfold bindM, getpass, bindM. simpl.
    destruct (keyboard w) as [| line rest] eqn:K; simpl.
    + left. rewrite <- app_assoc. done.
    + right. exists line, rest. rewrite <- app_assoc. done.
Qed.

Lemma ensure_api_keys_globals (model_id : string) (w : World) :
  globals (snd (ensure_api_keys model_id w)) = globals w.
Proof.
  destruct (ensure_api_keys_cases model_id w)
    as [-> | (var & n & p & _ & _ & [H | (l & r & H)])]; [done | |];
    by destruct H as (_ & _ & _ & _ & _ & H).
Qed.

Lemma get_shared_checkpointer_spec (w : World) :
  exists o w', get_shared_checkpointer w = (Val o, w') /\
    _shared_checkpointer w' = Some o /\
    (forall o0, _shared_checkpointer w = Some o0 -> o = o0 /\ w' = w) /\
    _shared_store w' = _shared_store w /\ _mcp_client w' = _mcp_client w.
Proof.
  unfold get_shared_checkpointer.
  destruct (_shared_checkpointer w) as [o |] eqn:E; do 2 eexists;
    (split; [reflexivity |]); simpl; (split; [done |]);
    (split; [intros o' Ho; by inversion Ho | done]).
Qed.

Lemma get_shared_store_spec (w : World) :
  exists o w', get_shared_store w = (Val o, w') /\
    _shared_store w' = Some o /\
    (forall o0, _shared_store w = Some o0 -> o = o0 /\ w' = w) /\
    _shared_checkpointer w' = _shared_checkpointer w /\
    _mcp_client w' = _mcp_client w.
Proof.
  unfold get_shared_store.
  destruct (_shared_store w) as [o |] eqn:E; do 2 eexists;
    (split; [reflexivity |]); simpl; (split; [done |]);
    (split; [intros o' Ho; by inversion Ho | done]).
Qed.

Lemma get_mcp_client_spec (url transport : string) (w : World) :
  exists c w', get_mcp_client url transport w = (Val c, w') /\
    _mcp_client w' = Some c /\
    (forall c0, _mcp_client w = Some c0 -> c = c0 /\ w' = w) /\
    (_mcp_client w = None ->
     c = {| client_url := url; client_transport := transport |}) /\
    _shared_checkpointer w' = _shared_checkpointer w /\
    _shared_store w' = _shared_store w /\
    environ w' = environ w /\ keyboard w' = keyboard w /\
    stdout w' = stdout w.
Proof.
  unfold get_mcp_client.
  destruct (_mcp_client w) as [c |] eqn:E; do 2 eexists;
    (split; [reflexivity |]); simpl; (split; [done |]);
    (split; [intros c' Hc; by inversion Hc |]); done.
Qed.

Section AgentProofs.

Context {Temperature Kwargs : Type}.
Context (rt : Runtime) (dt : Temperature) (cs : MCPClient -> Session).
Context (ie : @ChatModel Temperature -> gmap string string -> option Exn).

Lemma construct_run (m : ChatModel) (w : World) :
  construct ie m w = (built ie (environ w) m, w).
Proof. unfold construct, built. by destruct (ie m (environ w)). Qed.

Lemma get_model_run (model_id : string) (t : Temperature) (w : World) :
  get_model ie model_id t w =
  match ensure_api_keys model_id w with
  | (Val _, w') =>
      (match model_of model_id t with
       | Some m => built ie (environ w') m
       | None => Err IndexError
       end, w')
  | (Err e, w') => (Err e, w')
  end.
Proof.
  unfold get_model, bindM, model_of, index.
  destruct (ensure_api_keys model_id w) as [[[] | e] w']; [| done].
  destruct (startswith model_id "openai:");
    [destruct (nth_error _ 1); [apply construct_run | done] |].
  destruct (startswith model_id "anthropic:");
    [destruct (nth_error _ 1); [apply construct_run | done] |].
  destruct (startswith model_id "ollama:");
    [destruct (nth_error _ 1); [apply construct_run | done] |].
  apply construct_run.
Qed.

Lemma get_model_globals (model_id : string) (t : Temperature) (w : World) :
  globals (snd (get_model ie model_id t w)) = globals w.
Proof.
  rewrite get_model_run. pose proof (ensure_api_keys_globals model_id w) as H.
  by destruct (ensure_api_keys model_id w) as [[[] | e] w'].
Qed.

(** What entering [agent_session] yields: the session of the client, the
    tools [load_toolset_tools] returns for the toolset, and the shared
    checkpointer and store, which are the globals afterwards. *)
Lemma agent_session_inv (client : MCPClient)
    (toolset kind label sm nm model_id : string) (kw : Kwargs)
    (w w' : World) (agent : Agent) (session : Session) :
  agent_session rt dt cs ie client toolset kind label sm nm model_id kw w
    = (Val (agent, session), w') ->
  session = cs client /\
  snd (load_toolset_tools rt session (inl toolset) true)
    = Ok (agent_tools agent) /\
  _shared_checkpointer w' = Some (agent_checkpointer agent) /\
  _shared_store w' = Some (agent_store agent) /\
  _mcp_client w' = _mcp_client w /\
  (forall o, _shared_checkpointer w = Some o -> agent_checkpointer agent = o) /\
  (forall o, _shared_store w = Some o -> agent_store agent = o) /\
  agent_name agent = nm /\ agent_prompt agent = sm /\ agent_kwargs agent = kw.
Proof.
  unfold agent_session, bindM, await_toolset_tools, print_loaded.
  destruct (load_toolset_tools rt (cs client) (inl toolset) true)
    as [lines [tools | e]] eqn:EL; [| done].
  set (w1 := {| stdout := stdout w ++ List.map Trace lines |}).
  destruct (stdout_encodes_marks rt); [| done].
  destruct (print_out_spec (LoadedTools (length tools) kind label) w1)
    as (w2 & -> & G2 & _).
  pose proof (get_model_globals model_id dt w2) as G3.
  destruct (get_model ie model_id dt w2) as [[llm | e] w3]; [| done].
  simpl in G3.
  destruct (get_shared_checkpointer_spec w3)
    as (cp & w4 & -> & C1 & C2 & C3 & C4).
  destruct (get_shared_store_spec w4) as (st & w5 & -> & S1 & S2 & S3 & S4).
  unfold ret. intros [= <- <- <-]. simpl.
  unfold globals in G2, G3. injection G2 as G2a G2b G2c G2d.
  injection G3 as G3a G3b G3c G3d.
  repeat split; try done.
  - by rewrite EL.
  - by rewrite S3.
  - rewrite S4, C4, G3c, G2c. done.
  - intros o Ho. assert (H3 : _shared_checkpointer w3 = Some o)
      by (rewrite G3a, G2a; exact Ho).
    by destruct (C2 o H3) as [-> _].
  - intros o Ho. assert (H4 : _shared_store w4 = Some o)
      by (rewrite C3, G3b, G2b; exact Ho).
    by destruct (S2 o H4) as [-> _].
Qed.

(** What a returning call of [create_agent] did: it took the shared
    client and returned the session of the agent type's toolset. *)
Lemma create_agent_inv (ty model_id url tr : string) (kw : Kwargs)
    (w w1 : World) (s : M (Agent * Session)) :
  create_agent rt dt cs ie ty model_id url tr kw w = (Val s, w1) ->
  exists c toolset kind label sm nm,
    get_mcp_client url tr w = (Val c, w1) /\
    In (ty, toolset) agent_toolset /\
    s = agent_session rt dt cs ie c toolset kind label sm nm model_id kw.
Proof.
  unfold create_agent, AVAILABLE_AGENTS. cbn [dict_get].
  destruct (get_mcp_client_spec url tr w) as (c & w' & Hc & _).
  destruct (String.eqb "performance" ty) eqn:E1;
    [apply String.eqb_eq in E1 as <- |].
  { unfold create_performance_agent, bindM. rewrite Hc. unfold ret.
    intros [= <- <-]. exists c. do 5 eexists.
    split; [done |]. split; [by left | done]. }
  destruct (String.eqb "discovery" ty) eqn:E2;
    [apply String.eqb_eq in E2 as <- |].
  { unfold create_sysadmin_discovery_agent, bindM. rewrite Hc. unfold ret.
    intros [= <- <-]. exists c. do 5 eexists.
    split; [done |]. split; [right; by left | done]. }
  destruct (String.eqb "browse" ty) eqn:E3;
    [apply String.eqb_eq in E3 as <- |].
  { unfold create_sysadmin_browse_agent, bindM. rewrite Hc. unfold ret.
    intros [= <- <-]. exists c. do 5 eexists.
    split; [done |]. split; [right; right; by left | done]. }
  destruct (String.eqb "search" ty) eqn:E4;
    [apply String.eqb_eq in E4 as <- |].
  { unfold create_sysadmin_search_agent, bindM. rewrite Hc. unfold ret.
    intros [= <- <-]. exists c. do 5 eexists.
    split; [done |]. split; [right; right; right; by left | done]. }
  unfold raise. intros [=].
Qed.

End AgentProofs.

End AgentFacts.

(** ** Properties beyond the claims *)

Module Extras.
Import Py PyFacts FilteredMcpTools Reading Examples FilterFacts PassFacts.
Import Tagged.

(** X1.  A result of the pass holds exactly the tools of the input for
    which [_should_include_tool] returns [True]: no tool that passes the
    custom filter and every key is dropped. *)
Theorem X1_result_membership (rt : Runtime) (L : list Tool)
    (F : option FilterSpec) (P : option CallableObject) (d : bool)
    (res : list Tool) :
  filterTools rt L F P d = Ok res ->
  forall t, In t res <-> In t L /\ _should_include_tool t F P = Ok true.
Proof.
  intros H t. apply filterTools_ok_inv in H as [-> _].
  rewrite filter_In, included_true. done.
Qed.

Lemma X1_result_membership_witness :
  In tool_C [tool_A; tool_C] <->
    In tool_C [tool_A; tool_B; tool_C; tool_D; tool_E] /\
    _should_include_tool tool_C (Some (by_toolsets ["performance"])) None
      = Ok true.
Proof.
  apply (X1_result_membership cpython _ _ _ false). vm_compute. reflexivity.
Defined.

(** X2.  Tools are judged one by one: the pass over [L1 ++ L2] returns a
    list exactly when the passes over [L1] and over [L2] do, and then it
    returns their results one after the other. *)
Theorem X2_pass_distributes_over_append (rt : Runtime) (L1 L2 R : list Tool)
    (F : option FilterSpec) (P : option CallableObject) (d : bool) :
  filterTools rt (L1 ++ L2) F P d = Ok R <->
  exists R1 R2, filterTools rt L1 F P d = Ok R1 /\
    filterTools rt L2 F P d = Ok R2 /\ R = R1 ++ R2.
Proof.
  split.
  - intros H. apply filterTools_ok_inv in H as (-> & Hok & Hl).
    apply no_raise_app in Hok as [H1 H2].
    exists (List.filter (included F P) L1), (List.filter (included F P) L2).
    rewrite !filterTools_total; try done.
    + by rewrite List.filter_app.
    + intros Hd. by apply (lines_ok_app rt F P L1 L2), Hl.
    + intros Hd. by apply (lines_ok_app rt F P L1 L2), Hl.
  - intros (R1 & R2 & H1 & H2 & ->).
    apply filterTools_ok_inv in H1 as (-> & H1 & Hl1).
    apply filterTools_ok_inv in H2 as (-> & H2 & Hl2).
    rewrite filterTools_total.
    + by rewrite List.filter_app.
    + by apply no_raise_app.
    + intros Hd. apply lines_ok_app. split; [by apply Hl1 | by apply Hl2].
Qed.

Lemma X2_pass_distributes_over_append_witness :
  exists R1 R2,
    filterTools cpython [tool_A; tool_B] (Some (by_toolsets ["performance"]))
      None true = Ok R1 /\
    filterTools cpython [tool_C; tool_D; tool_E]
      (Some (by_toolsets ["performance"])) None true = Ok R2 /\
    [tool_A; tool_C] = R1 ++ R2.
Proof.
  apply (proj1 (X2_pass_distributes_over_append cpython
                  [tool_A; tool_B] [tool_C; tool_D; tool_E] _ _ _ _)).
  vm_compute. reflexivity.
Defined.

(** X3.  Filter specs compose.  For a dictionary whose keys are those of
    [F1] followed by those of [F2] (no key twice): when filtering with it
    returns [R], filtering with [F1] returns some [R1] and filtering [R1]
    with [F2] returns [R], the custom filter being applied in the first
    pass and [debug] being the same in the three passes; without [debug]
    the converse holds too.  (With [debug] the single pass formats, for a
    tool the first pass excludes, the annotation values of the keys of
    [F2] as well, and may raise where the two passes do not.) *)
Theorem X3_filter_specs_compose (rt : Runtime) (L R : list Tool)
    (F1 F2 : FilterSpec) (P : option CallableObject) (d : bool) :
  dict_keys_distinct (F1 ++ F2) ->
  (filterTools rt L (Some (F1 ++ F2)) P d = Ok R ->
   exists R1, filterTools rt L (Some F1) P d = Ok R1 /\
     filterTools rt R1 (Some F2) None d = Ok R) /\
  (filterTools rt L (Some (F1 ++ F2)) P false = Ok R <->
   exists R1, filterTools rt L (Some F1) P false = Ok R1 /\
     filterTools rt R1 (Some F2) None false = Ok R).
Proof.
  intros _.
  assert (Hinc : forall t,
    is_ok (_should_include_tool t (Some F1) P) = true ->
    included (Some (F1 ++ F2)) P t =
    included (Some F1) P t && included (Some F2) None t).
  { intros t. unfold included. rewrite should_include_app.
    by destruct (_should_include_tool t (Some F1) P) as [[|] | e]. }
  assert (Hfwd : forall d', filterTools rt L (Some (F1 ++ F2)) P d' = Ok R ->
    exists R1, filterTools rt L (Some F1) P d' = Ok R1 /\
      filterTools rt R1 (Some F2) None d' = Ok R).
  { intros d' H. apply filterTools_ok_inv in H as (-> & Hok & Hl).
    assert (H1 : Forall (fun t =>
      is_ok (_should_include_tool t (Some F1) P) = true) L).
    { eapply Forall_impl; [exact Hok |]. simpl. intros t.
      rewrite should_include_app.
      by destruct (_should_include_tool t (Some F1) P) as [[|] | e]. }
    exists (List.filter (included (Some F1) P) L).
    split; [apply filterTools_total; [done |] |].
    - (* the lines of the first pass *)
      intros Hd Hr.
      assert (Hr' : returns_all (Some (F1 ++ F2)) P = false).
      { unfold returns_all in *.
        destruct F1, (custom_truthy P); simpl in *;
          rewrite ?andb_false_r; done. }
      destruct (Hl Hd Hr') as [Hh Hf]. split.
      + apply header_error_some. apply header_error_some in Hh.
        rewrite filters_str_ok_app in Hh. by apply andb_true_iff in Hh as [? _].
      + apply List.Forall_forall. intros t Ht.
        rewrite List.Forall_forall in Hf, H1.
        eapply tool_line_ok_transfer; [exact (Hf t Ht) |].
        intros Hex. split; [by rewrite (Hinc t (H1 t Ht)), Hex |].
        rewrite !annotations_info_some, format_annotations_app.
        by intros [? _]%andb_true_iff.
    - rewrite filterTools_total.
      + rewrite filter_bool_twice. f_equal. symmetry.
        apply filter_bool_ext_in. intros t Ht. apply Hinc.
        rewrite List.Forall_forall in H1. by apply H1.
      + apply List.Forall_forall. intros t Ht.
        apply filter_In in Ht as [Ht Hi]. apply included_true in Hi.
        rewrite List.Forall_forall in Hok. specialize (Hok t Ht).
        simpl in Hok. by rewrite should_include_app, Hi in Hok.
      + (* the lines of the second pass *)
        intros Hd Hr.
        assert (Hr' : returns_all (Some (F1 ++ F2)) P = false).
        { unfold returns_all in *.
          destruct F1, F2, (custom_truthy P); simpl in *;
            rewrite ?andb_false_r; done. }
        destruct (Hl Hd Hr') as [Hh Hf]. split.
        * apply header_error_some. apply header_error_some in Hh.
          rewrite filters_str_ok_app in Hh.
          by apply andb_true_iff in Hh as [_ ?].
        * apply List.Forall_forall. intros t Ht.
          apply filter_In in Ht as [Ht Hi].
          rewrite List.Forall_forall in Hf, H1.
          eapply tool_line_ok_transfer; [exact (Hf t Ht) |].
          intros Hex. split; [by rewrite (Hinc t (H1 t Ht)), Hi, Hex |].
          rewrite !annotations_info_some, format_annotations_app.
          by intros [_ ?]%andb_true_iff. }
  split; [apply Hfwd |]. split; [apply Hfwd |].
  intros (R1 & H1 & H2).
  apply filterTools_ok_inv in H1 as (-> & H1 & _).
  apply filterTools_ok_inv in H2 as (-> & H2 & _).
  rewrite filterTools_quiet.
  - rewrite filter_bool_twice. f_equal.
    apply filter_bool_ext_in. intros t Ht. apply Hinc.
    rewrite List.Forall_forall in H1. by apply H1.
  - apply List.Forall_forall. intros t Ht. rewrite should_include_app.
    rewrite List.Forall_forall in H1. specialize (H1 t Ht). simpl in H1.
    destruct (_should_include_tool t (Some F1) P) as [[|] | e] eqn:E;
      try done.
    rewrite List.Forall_forall in H2. apply H2.
    apply filter_In. split; [done |]. by apply included_true.
Qed.

Lemma X3_filter_specs_compose_witness :
  exists R1,
    filterTools cpython [system_status; tune_pool; describe_object]
      (Some (by_toolsets ["performance"])) (Some (func not_tune_pool)) true
      = Ok R1 /\
    filterTools cpython R1 (Some (read_only true)) None true
      = Ok [system_status].
Proof.
  apply (X3_filter_specs_compose cpython
           [system_status; tune_pool; describe_object] [system_status]
           (by_toolsets ["performance"]) (read_only true)
           (Some (func not_tune_pool)) true).
  - unfold dict_keys_distinct. compute_done.
  - vm_compute. reflexivity.
Defined.

(** X4.  The order of the keys of a filter spec does not change the
    result: when the pass returns for a spec and for a reordering of it,
    it returns the same list. *)
Theorem X4_key_order_irrelevant (rt : Runtime) (L R R' : list Tool)
    (F F' : FilterSpec) (P : option CallableObject) (d d' : bool) :
  Permutation F F' ->
  filterTools rt L (Some F) P d = Ok R ->
  filterTools rt L (Some F') P d' = Ok R' ->
  R = R'.
Proof.
  intros Hperm H H'.
  apply filterTools_ok_inv in H as [-> _].
  apply filterTools_ok_inv in H' as [-> _].
  apply filter_bool_ext_in. intros t _.
  destruct (included (Some F) P t) eqn:E1, (included (Some F') P t) eqn:E2;
    try done.
  - apply included_true, should_include_true in E1 as [Hc Hk].
    assert (E : included (Some F') P t = true); [| congruence].
    apply included_true, should_include_true. split; [done |].
    simpl in *. by rewrite <- Hperm.
  - apply included_true, should_include_true in E2 as [Hc Hk].
    assert (E : included (Some F) P t = true); [| congruence].
    apply included_true, should_include_true. split; [done |].
    simpl in *. by rewrite Hperm.
Qed.

Lemma X4_key_order_irrelevant_witness :
  [system_status] = [system_status].
Proof.
  apply (X4_key_order_irrelevant cpython
           [system_status; tune_pool; describe_object]
           _ _ (by_toolsets ["performance"] ++ read_only true)
           (read_only true ++ by_toolsets ["performance"]) None false true).
  - apply Permutation_app_comm.
  - vm_compute. reflexivity.
  - vm_compute. reflexivity.
Defined.



(** X6.  A custom filter that raises nothing but [Exception]s on the
    tools, with no annotation filters ([None] or [{}]): the pass returns
    the tools on which the custom filter returns a true value, in input
    order; a tool on which it raises is left out.  This holds without
    [debug], and with [debug] when [stdout] can encode the marks of the
    tool lines.  A callable object whose truth value is false is not
    called at all: the pass returns every tool. *)
Theorem X6_custom_filter_only (rt : Runtime) (L : list Tool)
    (cf : Callable Tool) (d : bool) :
  (forall t, In t L -> raises_only_exceptions cf t) ->
  (d = true -> stdout_encodes_marks rt = true) ->
  filterTools rt L None (Some (func cf)) d
    = Ok (List.filter (returns_truthy cf) L) /\
  filterTools rt L (Some []) (Some (func cf)) d
    = Ok (List.filter (returns_truthy cf) L) /\
  filterTools rt L None (Some {| truth_value := false; call := cf |}) d
    = Ok L /\
  filterTools rt L (Some []) (Some {| truth_value := false; call := cf |}) d
    = Ok L.
Proof.
  intros Hex Hm.
  assert (H : forall F t, In t L -> filters_truthy F = false ->
    _should_include_tool t F (Some (func cf)) = Ok (returns_truthy cf t)).
  { intros F t Ht HF. unfold _should_include_tool.
    rewrite custom_filter_passes_truthy by (by apply Hex). rewrite HF.
    simpl. by destruct (returns_truthy cf t). }
  assert (Hgen : forall F, filters_truthy F = false ->
    filterTools rt L F (Some (func cf)) d
    = Ok (List.filter (returns_truthy cf) L)).
  { intros F HF. rewrite filterTools_total.
    - f_equal. apply filter_bool_ext_in. intros t Ht. unfold included.
      by rewrite H.
    - apply List.Forall_forall. intros t Ht. by rewrite H.
    - intros Hd _. split.
      + unfold header_error. by rewrite HF.
      + apply List.Forall_forall. intros t Ht. unfold tool_line_error.
        destruct (included F (Some (func cf)) t);
          [by apply line_error_of_included, Hm |].
        apply line_error_of_excluded. split; [by apply Hm |].
        unfold annotations_info. by rewrite HF. }
  split; [by apply Hgen |]. split; [by apply Hgen |].
  split; by rewrite filterTools_unfold.
Qed.

Lemma X6_custom_filter_only_witness :
  filterTools cpython [system_status; tune_pool; bare_tool] None
    (Some (func not_tune_pool)) true
  = Ok (List.filter (returns_truthy not_tune_pool)
          [system_status; tune_pool; bare_tool]).
Proof.
  apply (X6_custom_filter_only cpython [system_status; tune_pool; bare_tool]
           not_tune_pool true).
  - intros t _ e H. discriminate H.
  - reflexivity.
Defined.

(** X7.  A filter spec made of predicates that raise nothing but
    [Exception]s never makes the pass raise without [debug]: the pass
    returns the tools on whose annotation values (the value of the key,
    [None] when the tool has none) every predicate returns a true value;
    a predicate that raises counts as no match.  With [debug] the pass
    returns that list when it returns. *)
Theorem X7_predicate_filters (rt : Runtime) (L : list Tool)
    (preds : list (string * Callable Value)) :
  (forall t kp, In t L -> In kp preds ->
     raises_only_exceptions (snd kp) (_get_annotation_value t (fst kp))) ->
  filterTools rt L
    (Some (List.map (fun kp => (fst kp, FCallable (snd kp))) preds)) None
    false
  = Ok (List.filter (predicates_hold preds) L) /\
  forall R,
    filterTools rt L
      (Some (List.map (fun kp => (fst kp, FCallable (snd kp))) preds)) None
      true = Ok R ->
    R = List.filter (predicates_hold preds) L.
Proof.
  intros Hex.
  assert (H : forall t, In t L ->
    match_items t (List.map (fun kp => (fst kp, FCallable (snd kp))) preds)
    = Ok (predicates_hold preds t)).
  { intros t Ht. specialize (Hex t).
    induction preds as [| [k f] preds IH]; simpl; [done |].
    unfold returns_truthy at 1. simpl.
    pose proof (Hex (k, f) Ht (or_introl eq_refl)) as Hf.
    unfold raises_only_exceptions in Hf. simpl in Hf.
    destruct (f (_get_annotation_value t k)) as [r | e]; simpl.
    - destruct (truthy r); simpl; [| done].
      apply IH. intros kp H1 H2. apply Hex; [done | by right].
    - by rewrite (Hf e eq_refl). }
  assert (Hinc : forall t, In t L ->
    included
      (Some (List.map (fun kp => (fst kp, FCallable (snd kp))) preds)) None t
    = predicates_hold preds t).
  { intros t Ht. unfold included.
    by rewrite should_include_items, (H t Ht). }
  split.
  - rewrite filterTools_quiet.
    + f_equal. by apply filter_bool_ext_in.
    + apply List.Forall_forall. intros t Ht.
      by rewrite should_include_items, (H t Ht).
  - intros R HR. apply filterTools_ok_inv in HR as (-> & _).
    by apply filter_bool_ext_in.
Qed.

Lemma X7_predicate_filters_witness :
  filterTools cpython [describe_object; system_status]
    (Some [("toolsets", FCallable is_none)]) None false
  = Ok (List.filter (predicates_hold [("toolsets", is_none)])
          [describe_object; system_status]).
Proof.
  apply (X7_predicate_filters cpython [describe_object; system_status]
           [("toolsets", is_none)]).
  intros t kp _ [<- | []] e H. discriminate H.
Defined.

(** X8.  Looking up an annotation never fails.  A key stored in the
    metadata dictionary is read back with its value and storing a key does
    not change what the other keys read; a tool without the attribute, with
    [None], with an empty dictionary or with an object that has no [get]
    reads [None] for every key. *)
Theorem X8_annotation_lookup (n desc key : string) (v : Value)
    (d : gmap string Value) :
  _get_annotation_value
    {| name := n; description := desc; metadata := MetaDict (<[key := v]> d) |}
    key = v /\
  (forall key', key' <> key ->
     _get_annotation_value
       {| name := n; description := desc;
          metadata := MetaDict (<[key := v]> d) |} key'
     = _get_annotation_value
         {| name := n; description := desc; metadata := MetaDict d |} key') /\
  (forall m,
     m = MetaAbsent \/ m = MetaNone \/ m = MetaDict ∅ \/ m = MetaOpaque ->
     _get_annotation_value
       {| name := n; description := desc; metadata := m |} key = VNone).
Proof.
  repeat split.
  - rewrite get_annotation_value_spec. simpl. by rewrite lookup_insert_eq.
  - intros key' Hne. rewrite !get_annotation_value_spec. simpl.
    by rewrite lookup_insert_ne.
  - intros m [-> | [-> | [-> | ->]]]; rewrite get_annotation_value_spec;
      simpl; done.
Qed.

Lemma X8_annotation_lookup_witness :
  _get_annotation_value
    {| name := "t"; description := "";
       metadata := MetaDict
         (<["toolsets" := strs ["performance"]]> (∅ : gmap string Value)) |}
    "readOnlyHint"
  = _get_annotation_value
      {| name := "t"; description := ""; metadata := MetaDict ∅ |}
      "readOnlyHint".
Proof.
  apply (proj1 (proj2 (X8_annotation_lookup "t" "" "toolsets"
                         (strs ["performance"]) ∅))).
  discriminate.
Defined.

(** X9.  A list filter value acts as a set: two filter lists with the
    same elements, in any order and with any repetitions, give the same
    outcome against every annotation value, the same exception
    included. *)
Theorem X9_filter_list_is_a_set (a : Value) (fl fl' : list Value) :
  (forall x, In x fl <-> In x fl') ->
  _annotation_value_matches_filter a (FData (VList fl))
  = _annotation_value_matches_filter a (FData (VList fl')).
Proof.
  intros Heq.
  assert (Hin : forall x, py_in x fl = py_in x fl').
  { intros x. apply bool_eq_iff. rewrite !py_in_spec.
    split; intros (y & Hy & Hxy); exists y; split; try done; by apply Heq. }
  destruct a as [| x | x | x | al];
    try (rewrite !matches_list_single by done; by rewrite Hin).
  simpl. unfold py_set.
  destruct (hashable_all_dec al) as [Ha | Ha];
    [| by rewrite (set_update_raise al [] Ha)].
  destruct (set_update_ok al [] Ha) as [sa Hsa]. rewrite Hsa. simpl.
  destruct (hashable_all_dec fl) as [Hf | Hf].
  - assert (Hf' : Forall (fun v => hashable v = true) fl').
    { apply List.Forall_forall. intros y Hy. apply Heq in Hy.
      rewrite List.Forall_forall in Hf. by apply Hf. }
    destruct (set_update_ok fl [] Hf) as [sf Hsf].
    destruct (set_update_ok fl' [] Hf') as [sf' Hsf'].
    rewrite Hsf, Hsf'. simpl. f_equal. apply bool_eq_iff.
    rewrite (sets_intersect al fl sa sf Hsa Hsf).
    rewrite (sets_intersect al fl' sa sf' Hsa Hsf').
    split; intros (x & y & Hx & Hy & Hxy); exists x, y;
      repeat split; try done; by apply Heq.
  - assert (Hf' : Exists (fun v => hashable v = false) fl').
    { apply List.Exists_exists in Hf as (y & Hy & Hh).
      apply List.Exists_exists. exists y. split; [by apply Heq | done]. }
    by rewrite (set_update_raise fl [] Hf), (set_update_raise fl' [] Hf').
Qed.

Lemma X9_filter_list_is_a_set_witness :
  _annotation_value_matches_filter (strs ["sysadmin"])
    (FData (strs ["performance"; "sysadmin"]))
  = _annotation_value_matches_filter (strs ["sysadmin"])
      (FData (strs ["sysadmin"; "performance"; "sysadmin"])).
Proof.
  apply (X9_filter_list_is_a_set (strs ["sysadmin"])
           [VStr "performance"; VStr "sysadmin"]
           [VStr "sysadmin"; VStr "performance"; VStr "sysadmin"]).
  intros x. simpl. tauto.
Defined.

(** X10.  [load_toolset_tools], when it returns, returns exactly the tools
    of the session that carry one of the requested toolsets: tools whose
    [toolsets] annotation is a list holding one of the names, or is one of
    the names itself.  A single name given as a string is the list of that
    one name. *)
Theorem X10_toolset_tools_membership (rt : Runtime) (s : Session)
    (ts : string + list string) (d : bool) (res : list Tool) :
  returned (load_toolset_tools rt s ts d) = Ok res ->
  forall t, In t res <->
    In t (listed_tools s) /\ exists n, In n (requested ts) /\ in_toolset n t.
Proof.
  intros H t. apply toolset_tools_inv in H as (keep & -> & Hkeep).
  rewrite filter_In. split.
  - intros [Ht Hk]. split; [done |].
    by apply (toolsets_key_matches _ _ _ (Hkeep t Ht)).
  - intros [Ht Hn]. split; [done |].
    by apply (toolsets_key_matches _ _ _ (Hkeep t Ht)).
Qed.

Lemma X10_toolset_tools_membership_witness :
  In tool_B [tool_A; tool_C] <->
    In tool_B [tool_A; tool_B; tool_C; tool_D; tool_E] /\
    exists n, In n ["performance"] /\ in_toolset n tool_B.
Proof.
  apply (X10_toolset_tools_membership cpython
           {| listed_tools := [tool_A; tool_B; tool_C; tool_D; tool_E] |}
           (inl "performance") true).
  vm_compute. reflexivity.
Defined.



(** X12.  Asking for no toolset at all returns no tool: with the empty
    list of names [load_toolset_tools] returns the empty list or raises,
    it does not fall back to all tools. *)
Theorem X12_no_toolsets_no_tools (rt : Runtime) (s : Session) (d : bool)
    (res : list Tool) :
  returned (load_toolset_tools rt s (inr []) d) = Ok res -> res = [].
Proof.
  intros H. apply toolset_tools_inv in H as (keep & -> & Hkeep).
  assert (Hall : forall t, In t (listed_tools s) -> keep t = false).
  { intros t Ht. destruct (keep t) eqn:E; [| done].
    pose proof (proj1 (toolsets_key_matches _ _ _ (Hkeep t Ht)) E)
      as (n & [] & _). }
  induction (listed_tools s) as [| t L IH]; simpl; [done |].
  rewrite (Hall t) by (by left). apply IH.
  - intros t' Ht'. apply Hkeep. by right.
  - intros t' Ht'. apply Hall. by right.
Qed.

Lemma X12_no_toolsets_no_tools_witness :
  ([] : list Tool) = [].
Proof.
  apply (X12_no_toolsets_no_tools cpython
           {| listed_tools := [tool_A; tool_B; tool_D] |} false).
  vm_compute. reflexivity.
Defined.

(** What a factory of one boolean hint returns. *)
Lemma hint_tools (rt : Runtime) (L : list Tool) (key : string) (b : bool) :
  exists res,
    filterTools rt L (Some [(key, FData (VBool b))]) None false = Ok res /\
    sublist res L /\
    (forall t, In t res <-> In t L /\ hint_is b key t) /\
    (forall t, lacks_annotation t key -> ~ In t res) /\
    (forall res',
       filterTools rt L (Some [(key, FData (VBool b))]) None true = Ok res' ->
       res' = res) /\
    (stdout_encodes_marks rt = true ->
     (forall t, In t L -> shows rt key t) ->
     filterTools rt L (Some [(key, FData (VBool b))]) None true = Ok res).
Proof.
  pose proof (hints_pass rt L [(key, b)]) as Hq.
  pose proof (hints_pass_debug rt L [(key, b)] true) as Hd.
  pose proof (hints_pass_loud rt L [(key, b)]) as Hl.
  cbn [List.map fst snd] in Hq, Hd, Hl.
  eexists. split; [exact Hq |]. split; [apply filter_bool_sublist |].
  assert (Hm : forall t,
    In t (List.filter (fun t => forallb (fun kb =>
      py_eq (_get_annotation_value t (fst kb)) (VBool (snd kb)))
      [(key, b)]) L) <-> In t L /\ hint_is b key t).
  { intros t. rewrite filter_In. simpl. by rewrite andb_true_r. }
  split; [exact Hm |]. split; [| split; [exact Hd |]].
  - intros t Hlack Hin. apply Hm in Hin as [_ Hh].
    apply get_annotation_value_lacking in Hlack. unfold hint_is in Hh.
    by rewrite Hlack in Hh.
  - intros Hmarks Hs. apply Hl; [done |].
    intros t kb Ht [<- | []]. by apply Hs.
Qed.


(** X14.  [load_non_destructive_tools] and [load_closed_world_tools]
    without [debug] always return: exactly the tools whose
    [destructiveHint], respectively [openWorldHint], equals ([==])
    [False].  A tool that does not declare the hint is not returned:
    absence does not count as [False].  With [debug] they return the same
    list when they return. *)
Theorem X14_false_hint_tools (rt : Runtime) (s : Session) :
  (exists res, returned (load_non_destructive_tools rt s false) = Ok res /\
     (forall t, In t res <->
        In t (listed_tools s) /\ hint_is false "destructiveHint" t) /\
     (forall t, lacks_annotation t "destructiveHint" -> ~ In t res) /\
     (forall res',
        returned (load_non_destructive_tools rt s true) = Ok res' ->
        res' = res)) /\
  (exists res, returned (load_closed_world_tools rt s false) = Ok res /\
     (forall t, In t res <->
        In t (listed_tools s) /\ hint_is false "openWorldHint" t) /\
     (forall t, lacks_annotation t "openWorldHint" -> ~ In t res) /\
     (forall res',
        returned (load_closed_world_tools rt s true) = Ok res' ->
        res' = res)).
Proof.
  unfold load_non_destructive_tools, load_closed_world_tools.
  rewrite !returned_load. split.
  - destruct (hint_tools rt (listed_tools s) "destructiveHint" false)
      as (res & H1 & _ & H3 & H4 & H5 & _). by exists res.
  - destruct (hint_tools rt (listed_tools s) "openWorldHint" false)
      as (res & H1 & _ & H3 & H4 & H5 & _). by exists res.
Qed.

(** X15.  What [load_safe_tools] returns are the tools returned by all
    three of [load_readonly_tools], [load_non_destructive_tools] and
    [load_closed_world_tools]: without [debug] the four functions always
    return, and whenever the four return, with whatever [debug] flags,
    the first result holds exactly the tools that are in the three
    others. *)
Theorem X15_safe_tools_intersection (rt : Runtime) (s : Session) :
  (exists R Rr Rn Rc,
     returned (load_safe_tools rt s false) = Ok R /\
     returned (load_readonly_tools rt s false) = Ok Rr /\
     returned (load_non_destructive_tools rt s false) = Ok Rn /\
     returned (load_closed_world_tools rt s false) = Ok Rc) /\
  forall (d dr dn dc : bool) (R Rr Rn Rc : list Tool),
    returned (load_safe_tools rt s d) = Ok R ->
    returned (load_readonly_tools rt s dr) = Ok Rr ->
    returned (load_non_destructive_tools rt s dn) = Ok Rn ->
    returned (load_closed_world_tools rt s dc) = Ok Rc ->
    forall t, In t R <-> In t Rr /\ In t Rn /\ In t Rc.
Proof.
  unfold load_safe_tools, load_readonly_tools, load_non_destructive_tools,
    load_closed_world_tools. rewrite !returned_load. split.
  - rewrite (hints_pass rt _ [("readOnlyHint", true);
                              ("destructiveHint", false);
                              ("openWorldHint", false)]).
    rewrite (hints_pass rt _ [("readOnlyHint", true)]).
    rewrite (hints_pass rt _ [("destructiveHint", false)]).
    rewrite (hints_pass rt _ [("openWorldHint", false)]).
    do 4 eexists. repeat split; reflexivity.
  - intros d dr dn dc R Rr Rn Rc H Hr Hn Hc. rewrite !returned_load in *.
    apply (hints_pass_debug rt _ [("readOnlyHint", true);
                                  ("destructiveHint", false);
                                  ("openWorldHint", false)]) in H as ->.
    apply (hints_pass_debug rt _ [("readOnlyHint", true)]) in Hr as ->.
    apply (hints_pass_debug rt _ [("destructiveHint", false)]) in Hn as ->.
    apply (hints_pass_debug rt _ [("openWorldHint", false)]) in Hc as ->.
    intros t. rewrite !filter_In. simpl.
    rewrite !andb_true_r, !andb_true_iff. tauto.
Qed.

End Extras.

(** ** Properties of the agents module *)

Module AgentExtras.
Import Py FilteredMcpTools Examples FilterFacts PassFacts.
Import LangchainAgents AgentReading AgentExamples AgentFacts.

Lemma openai_not_anthropic (s : string) :
  startswith s "openai:" = true -> startswith s "anthropic:" = false.
Proof.
  unfold startswith. destruct s as [| c s]; [done |]. cbn [String.prefix].
  destruct (ascii_dec "o" c) as [<- | _]; [| done]. intros _.
  by destruct (ascii_dec "a" "o").
Qed.

Lemma env_falsy_insert_eq (w w' : World) (var line : string) :
  environ w' = <[var := line]> (environ w) -> line <> "" ->
  env_falsy w' var = false.
Proof.
  intros H Hl. unfold env_falsy. rewrite H, lookup_insert_eq.
  apply String.eqb_neq. done.
Qed.

Lemma env_falsy_insert_ne (w w' : World) (var var' line : string) :
  environ w' = <[var := line]> (environ w) -> var <> var' ->
  env_falsy w' var' = env_falsy w var'.
Proof.
  intros H Hne. unfold env_falsy. by rewrite H, lookup_insert_ne.
Qed.

Lemma ensure_api_keys_noop (model_id : string) (w : World) :
  startswith model_id "openai:" && env_falsy w "OPENAI_API_KEY" = false ->
  startswith model_id "anthropic:" && env_falsy w "ANTHROPIC_API_KEY" = false ->
  ensure_api_keys model_id w = (Val tt, w).
Proof. unfold ensure_api_keys. by intros -> ->. Qed.



(** X17.  What [ensure_api_keys] never does: it leaves the shared
    checkpointer, store and MCP client alone, it changes no environment
    variable other than OPENAI_API_KEY and ANTHROPIC_API_KEY, it never
    replaces a value that is set and not empty, and it only adds to the
    output. *)
Theorem X17_ensure_api_keys_frame (model_id : string) (w : World) :
  globals (snd (ensure_api_keys model_id w)) = globals w /\
  (forall var, var <> "OPENAI_API_KEY" -> var <> "ANTHROPIC_API_KEY" ->
     environ (snd (ensure_api_keys model_id w)) !! var = environ w !! var) /\
  (forall var v, environ w !! var = Some v -> v <> "" ->
     environ (snd (ensure_api_keys model_id w)) !! var = Some v) /\
  (exists out,
     stdout (snd (ensure_api_keys model_id w)) = stdout w ++ out).
Proof.
  split; [apply ensure_api_keys_globals |].
  destruct (ensure_api_keys_cases model_id w)
    as [-> | (key & n & p & Hkey & Hfalsy & [H | (l & r & H)])].
  - repeat split; try done. exists []. by rewrite app_nil_r.
  - destruct H as (_ & _ & -> & _ & -> & _). repeat split; try done. eauto.
  - destruct H as (_ & _ & -> & _ & -> & _). repeat split.
    + intros var H1 H2. rewrite lookup_insert_ne; [done |].
      by destruct Hkey as [-> | ->].
    + intros var v Hv Hne. destruct (decide (key = var)) as [<- | Hd].
      * unfold env_falsy in Hfalsy. rewrite Hv in Hfalsy.
        by apply String.eqb_eq in Hfalsy.
      * by rewrite lookup_insert_ne.
    + eauto.
Qed.

Lemma X17_ensure_api_keys_frame_witness :
  environ (snd (ensure_api_keys "openai:gpt-4o"
    {| _shared_checkpointer := None; _shared_store := None;
       _mcp_client := None;
       environ := {[ "OPENAI_API_KEY" := "sk-old" ]};
       keyboard := ["sk-new"]; stdout := []; next_obj := 0%nat |}))
    !! "OPENAI_API_KEY" = Some "sk-old".
Proof.
  apply (proj1 (proj2 (proj2 (X17_ensure_api_keys_frame "openai:gpt-4o" _)))).
  - reflexivity.
  - discriminate.
Defined.

(** X18.  Asking once is enough: when [ensure_api_keys] returns and the
    line it read, if any, was not empty, calling it again for the same
    model changes nothing and reads nothing. *)
Theorem X18_ensure_api_keys_settles (model_id : string) (w : World) :
  fst (ensure_api_keys model_id w) = Val tt ->
  (forall line rest, keyboard w = line :: rest -> line <> "") ->
  ensure_api_keys model_id (snd (ensure_api_keys model_id w))
  = (Val tt, snd (ensure_api_keys model_id w)).
Proof.
  intros Hret Hline.
  assert (Hl : forall line rest,
    keyboard w = line :: rest -> String.eqb line "" = false).
  { intros line rest K. apply String.eqb_neq. by eapply Hline. }
  apply ensure_api_keys_noop; unfold ensure_api_keys in *.
  - destruct (startswith model_id "openai:") eqn:Ho; [| done]. simpl andb in *.
    destruct (env_falsy w "OPENAI_API_KEY") eqn:E.
    + unfold bindM, getpass, bindM in *. cbn in Hret |- *.
      destruct (keyboard w) as [| line rest] eqn:K; [done |]. cbn.
      unfold env_falsy. cbn. rewrite lookup_insert_eq. by eapply Hl.
    + destruct (startswith model_id "anthropic:"
                && env_falsy w "ANTHROPIC_API_KEY"); [| done].
      unfold bindM, getpass, bindM in *. cbn in Hret |- *.
      destruct (keyboard w) as [| line rest] eqn:K; [done |]. cbn.
      unfold env_falsy in *. cbn. by rewrite lookup_insert_ne.
  - destruct (startswith model_id "openai:") eqn:Ho.
    + by rewrite (openai_not_anthropic _ Ho).
    + simpl andb in *.
      destruct (startswith model_id "anthropic:") eqn:Ha; [| done].
      simpl andb in *.
      destruct (env_falsy w "ANTHROPIC_API_KEY") eqn:E; [| done].
      unfold bindM, getpass, bindM in *. cbn in Hret |- *.
      destruct (keyboard w) as [| line rest] eqn:K; [done |]. cbn.
      unfold env_falsy. cbn. rewrite lookup_insert_eq. by eapply Hl.
Qed.

Lemma X18_ensure_api_keys_settles_witness :
  ensure_api_keys "anthropic:claude-3-opus"
    (snd (ensure_api_keys "anthropic:claude-3-opus"
       {| _shared_checkpointer := None; _shared_store := None;
          _mcp_client := None; environ := ∅; keyboard := ["key"];
          stdout := []; next_obj := 0%nat |}))
  = (Val tt,
     snd (ensure_api_keys "anthropic:claude-3-opus"
       {| _shared_checkpointer := None; _shared_store := None;
          _mcp_client := None; environ := ∅; keyboard := ["key"];
          stdout := []; next_obj := 0%nat |})).
Proof.
  apply X18_ensure_api_keys_settles.
  - reflexivity.
  - intros line rest [= <- _]. discriminate.
Defined.

(** X19.  The MCP client is created once: a call of [get_mcp_client]
    returns the client that exists, or creates it from its arguments when
    there is none; every later call returns that same client and ignores
    the url and transport it is given. *)
Theorem X19_mcp_client_is_shared (url1 tr1 url2 tr2 : string) (w : World) :
  exists c w1,
    get_mcp_client url1 tr1 w = (Val c, w1) /\
    get_mcp_client url2 tr2 w1 = (Val c, w1) /\
    (_mcp_client w = None ->
     c = {| client_url := url1; client_transport := tr1 |}) /\
    (forall c0, _mcp_client w = Some c0 -> c = c0 /\ w1 = w).
Proof.
  destruct (get_mcp_client_spec url1 tr1 w)
    as (c & w1 & H1 & Hset & Hkeep & Hnew & _).
  exists c, w1. split; [done |]. split; [| split; [done |]].
  - destruct (get_mcp_client_spec url2 tr2 w1) as (c' & w2 & H2 & _ & Hk & _).
    destruct (Hk c Hset) as [-> ->]. done.
  - intros c0 H0. by destruct (Hkeep c0 H0).
Qed.

Section AgentTheorems.

Context {Temperature Kwargs : Type}.
Context (rt : Runtime) (dt : Temperature) (cs : MCPClient -> Session).
Context (ie : @ChatModel Temperature -> gmap string string -> option Exn).

(** X20.  [create_agent] accepts exactly the agent types that
    [list_available_agents] describes: for each of them it returns a
    session without raising, and for any other type it raises [ValueError]
    with the message naming the type and the four available ones, leaving
    the world as it is (no MCP client is created). *)
Theorem X20_create_agent_registry (ty model_id url tr : string)
    (kw : Kwargs) (w : World) :
  (In ty (List.map fst list_available_agents) ->
   exists s w1, create_agent rt dt cs ie ty model_id url tr kw w = (Val s, w1)) /\
  (~ In ty (List.map fst list_available_agents) ->
   create_agent rt dt cs ie ty model_id url tr kw w =
   (Err (ValueError
           (String.append "Unknown agent type '"
              (String.append ty
                 "'. Available: performance, discovery, browse, search"))),
    w)).
Proof.
  destruct (get_mcp_client_spec url tr w) as (c & w' & Hc & _).
  split.
  - intros Hin. simpl in Hin.
    destruct Hin as [<- | [<- | [<- | [<- | []]]]];
      unfold create_agent, AVAILABLE_AGENTS;
      cbn [dict_get String.eqb Ascii.eqb Bool.eqb];
      unfold create_performance_agent, create_sysadmin_discovery_agent,
        create_sysadmin_browse_agent, create_sysadmin_search_agent, bindM;
      rewrite Hc; eauto.
  - intros Hnot. unfold create_agent, AVAILABLE_AGENTS. cbn [dict_get].
    destruct (String.eqb "performance" ty) eqn:E1;
      [apply String.eqb_eq in E1 as <-; destruct Hnot; by left |].
    destruct (String.eqb "discovery" ty) eqn:E2;
      [apply String.eqb_eq in E2 as <-; destruct Hnot; right; by left |].
    destruct (String.eqb "browse" ty) eqn:E3;
      [apply String.eqb_eq in E3 as <-; destruct Hnot; right; right; by left |].
    destruct (String.eqb "search" ty) eqn:E4;
      [apply String.eqb_eq in E4 as <-; destruct Hnot;
       right; right; right; by left |].
    reflexivity.
Qed.

(** X21.  An agent only gets the tools of its own toolset: the tools of the
    agent that [create_agent] builds for a registered type are exactly the
    tools of its session that carry the toolset of that type
    (performance, sysadmin_discovery, sysadmin_browse, sysadmin_search). *)
Theorem X21_agent_tools_are_its_toolset (ty toolset model_id url tr : string)
    (kw : Kwargs) (w w1 w2 : World) (s : M (Agent * Session))
    (agent : Agent) (session : Session) :
  In (ty, toolset) agent_toolset ->
  create_agent rt dt cs ie ty model_id url tr kw w = (Val s, w1) ->
  s w1 = (Val (agent, session), w2) ->
  forall t, In t (agent_tools agent) <->
    In t (listed_tools session) /\ Tagged.in_toolset toolset t.
Proof.
  intros Hty Hcreate Henter t.
  apply create_agent_inv in Hcreate
    as (c & toolset' & kind & label & sm & nm & _ & Hty' & ->).
  assert (toolset' = toolset) as ->.
  { simpl in Hty, Hty'.
    destruct Hty as [[= <- <-] | [[= <- <-] | [[= <- <-] | [[= <- <-] | []]]]];
    destruct Hty' as [[= <-] | [[= <-] | [[= <-] | [[= <-] | []]]]];
    try done; discriminate. }
  apply agent_session_inv in Henter as (_ & Htools & _).
  apply toolset_tools_inv in Htools as (keep & -> & Hkeep).
  rewrite filter_In. cbn [Tagged.requested] in Hkeep. split.
  - intros [Ht Hk]. split; [done |].
    apply (toolsets_key_matches _ _ _ (Hkeep t Ht)) in Hk
      as (n & [<- | []] & Hn). done.
  - intros [Ht Hn]. split; [done |].
    apply (toolsets_key_matches _ _ _ (Hkeep t Ht)). exists toolset.
    split; [by left | done].
Qed.

(** X22.  Agents share their memory and their connection: two agents
    created one after the other, of any types and with any arguments, have
    the same checkpointer and the same store, and both run on sessions of
    one and the same MCP client; when no client existed before, it is the
    client of the first agent's url and transport, whatever url and
    transport the second agent is created with. *)
Theorem X22_agents_share_memory_and_client
    (ty1 id1 url1 tr1 ty2 id2 url2 tr2 : string) (kw1 kw2 : Kwargs)
    (w w1 w2 w3 w4 : World) (s1 s2 : M (Agent * Session))
    (a1 a2 : Agent) (ss1 ss2 : Session) :
  create_agent rt dt cs ie ty1 id1 url1 tr1 kw1 w = (Val s1, w1) ->
  s1 w1 = (Val (a1, ss1), w2) ->
  create_agent rt dt cs ie ty2 id2 url2 tr2 kw2 w2 = (Val s2, w3) ->
  s2 w3 = (Val (a2, ss2), w4) ->
  agent_checkpointer a2 = agent_checkpointer a1 /\
  agent_store a2 = agent_store a1 /\
  exists c, ss1 = cs c /\ ss2 = cs c /\
    (_mcp_client w = None ->
     c = {| client_url := url1; client_transport := tr1 |}).
Proof.
  intros H1 E1 H2 E2.
  apply create_agent_inv in H1 as (c1 & ts1 & k1 & l1 & sm1 & n1 & Hc1 & _ & ->).
  apply create_agent_inv in H2 as (c2 & ts2 & k2 & l2 & sm2 & n2 & Hc2 & _ & ->).
  apply agent_session_inv in E1 as (-> & _ & Hcp1 & Hst1 & Hcl1 & _).
  apply agent_session_inv in E2 as (-> & _ & _ & _ & Hcl2 & Hcp2 & Hst2 & _).
  destruct (get_mcp_client_spec url1 tr1 w)
    as (c1' & w1' & Hc1' & Hset1 & _ & Hnew1 & _).
  rewrite Hc1 in Hc1'. injection Hc1' as <- <-.
  destruct (get_mcp_client_spec url2 tr2 w2)
    as (c2' & w3' & Hc2' & _ & Hkeep2 & _ & Hcp3 & Hst3 & _).
  rewrite Hc2 in Hc2'. injection Hc2' as <- <-.
  assert (Hcl : _mcp_client w2 = Some c1) by (by rewrite Hcl1).
  destruct (Hkeep2 c1 Hcl) as [-> ->].
  split; [by apply Hcp2 |]. split; [by apply Hst2 |].
  exists c1. done.
Qed.

End AgentTheorems.

Lemma X20_create_agent_registry_witness :
  exists s w1,
    create_agent (Kwargs := unit) cpython 3%nat
      (fun _ => {| listed_tools := [tool_A; tool_B] |}) needs_key
      "browse" "gpt-oss:20b" DEFAULT_MCP_URL DEFAULT_TRANSPORT tt
      {| _shared_checkpointer := None; _shared_store := None;
         _mcp_client := None; environ := ∅; keyboard := []; stdout := [];
         next_obj := 0%nat |} = (Val s, w1).
Proof.
  apply (proj1 (X20_create_agent_registry cpython 3%nat _ needs_key
                  "browse" _ _ _ tt _)).
  right. right. by left.
Defined.

Lemma X21_agent_tools_are_its_toolset_witness :
  In tool_C (agent_tools performance_agent) <->
    In tool_C (listed_tools (scenario_session
      {| client_url := DEFAULT_MCP_URL;
         client_transport := DEFAULT_TRANSPORT |})) /\
    Tagged.in_toolset "performance" tool_C.
Proof.
  eapply (X21_agent_tools_are_its_toolset cpython 3%nat scenario_session
            needs_key "performance" "performance" "gpt-oss:20b"
            DEFAULT_MCP_URL DEFAULT_TRANSPORT tt fresh_world).
  - by left.
  - reflexivity.
  - reflexivity.
Defined.

Lemma X22_agents_share_memory_and_client_witness :
  agent_checkpointer browse_agent = agent_checkpointer performance_agent /\
  agent_store browse_agent = agent_store performance_agent.
Proof.
  edestruct (X22_agents_share_memory_and_client cpython 3%nat
               scenario_session needs_key "performance" "gpt-oss:20b" DEFAULT_MCP_URL DEFAULT_TRANSPORT
               "browse" "ollama:llama3.1" "http://10.0.0.7:3010/mcp" "sse"
               tt tt fresh_world)
    as (H1 & H2 & _); [reflexivity | reflexivity | reflexivity | reflexivity |].
  split; [exact H1 | exact H2].
Defined.

End AgentExtras.
